(** * Tabular ingestion pipeline of data_analyst.py

    A shallow embedding of [preprocess_and_save] (src/data_analyst.py,
    lines 13-55): extension dispatch, the reader's missing-value tokens,
    the quote-doubling pass over string columns, the date / numeric
    coercion pass, and the staging of the frame as fully quoted
    delimited text in a fresh temporary file.

    The pandas, csv and tempfile calls of the source are modelled from
    their documented behaviour (pandas 1.x and 2.x, where the strings of
    a file make an object column).  What the libraries decide by
    themselves (which strings are numbers, which are dates, how a value
    prints, which random names tempfile draws) is an interface, [Pandas]
    and [TempNames], over which every general theorem is stated; a small
    concrete instance is used to run the pipeline on examples.

    The data model is the one of the specification: cells are strings,
    numbers, timestamps or missing.  int64 and float64 are one numeric
    dtype here, the reader's boolean columns are left out, and the
    labels of a frame are taken to be unique, as the reader makes
    them. *)

From Stdlib Require Import Ascii.
From stdpp Require Import base option list gmap strings.

Set Default Proof Using "Type".
Local Open Scope stdpp_scope.

(** ** Strings as Python uses them *)

Module Str.

Definition dquote : ascii := "034"%char.
Definition comma : ascii := ","%char.
Definition newline : ascii := "010"%char.

(** [str.lower] on the ASCII letters. *)
Definition lower_char (c : ascii) : ascii :=
  let n := nat_of_ascii c in
  if (65 <=? n)%nat && (n <=? 90)%nat then ascii_of_nat (n + 32) else c.

Fixpoint lower (s : string) : string :=
  match s with
  | EmptyString => EmptyString
  | String c t => String (lower_char c) (lower t)
  end.

(** [sub in s]. *)
Fixpoint contains (sub s : string) : bool :=
  String.prefix sub s ||
  match s with
  | EmptyString => false
  | String _ t => contains sub t
  end.

(** [s.endswith(suffix)]: some tail of [s] is [suffix]. *)
Fixpoint endswith (s suffix : string) : bool :=
  String.eqb s suffix ||
  match s with
  | EmptyString => false
  | String _ t => endswith t suffix
  end.

(** Every quote character becomes two: the regex replacement of the
    source (line 30), and also what a csv writer does inside a quoted
    field when doublequote is on. *)
Fixpoint double_quotes (s : string) : string :=
  match s with
  | EmptyString => EmptyString
  | String c t =>
      if Ascii.eqb c dquote
      then String dquote (String dquote (double_quotes t))
      else String c (double_quotes t)
  end.

Fixpoint has_char (c : ascii) (s : string) : bool :=
  match s with
  | EmptyString => false
  | String d t => Ascii.eqb d c || has_char c t
  end.

(** [str.isspace] on the ASCII characters: tab to carriage return, the
    four separators 28 to 31, and the space. *)
Definition is_space (c : ascii) : bool :=
  let n := nat_of_ascii c in
  ((9 <=? n)%nat && (n <=? 13)%nat) || ((28 <=? n)%nat && (n <=? 32)%nat).

Fixpoint all_space (s : string) : bool :=
  match s with
  | EmptyString => true
  | String c t => is_space c && all_space t
  end.

Fixpoint lstrip (s : string) : string :=
  match s with
  | EmptyString => EmptyString
  | String c t => if is_space c then lstrip t else s
  end.

Definition rstrip (s : string) : string :=
  String.rev (lstrip (String.rev s)).

(** [s.strip()] *)
Definition strip (s : string) : string := rstrip (lstrip s).

End Str.

(** ** The library interface *)

(** What pandas decides on single values.  [number] is a value of an
    int64 or float64 column, [timestamp] one of a datetime64 column;
    missing values (NaN, NaT) are [None] in the cell. *)
Class Pandas := {
  number : Type;
  timestamp : Type;
  (** the reader's built-in missing-value tokens (keep_default_na) *)
  default_na : string → bool;
  (** the reader's conversion of a field to a number *)
  reader_number : string → option number;
  (** [to_numeric] on one string: [None] is the ValueError, [Some None] a
      string that converts to NaN *)
  str_to_number : string → option (option number);
  (** [to_datetime] with errors=coerce on one string: [None] is NaT *)
  str_to_timestamp : string → option timestamp;
  (** [to_datetime] with errors=coerce on one number (epoch offset) *)
  number_to_timestamp : number → option timestamp;
  (** how [to_csv] prints the values *)
  format_number : number → string;
  format_timestamp : timestamp → string;
}.

(** The names tempfile draws and the directory it draws them in. *)
Class TempNames := {
  tempdir : string;
  random_name : nat → string;
}.

(** ** Data model *)

Inductive dtype := dt_object | dt_number | dt_datetime64.

Global Instance dtype_eq_dec : EqDecision dtype.
Proof. solve_decision. Defined.

(** The semantic types of the specification, read off the dtype. *)
Inductive semantic_type := text | numeric | timestamp_type.

Global Instance semantic_type_eq_dec : EqDecision semantic_type.
Proof. solve_decision. Defined.

Definition semantic_of (d : dtype) : semantic_type :=
  match d with
  | dt_object => text
  | dt_number => numeric
  | dt_datetime64 => timestamp_type
  end.

Inductive exn :=
| KeyError (label : string)
| ValueError
| ParserError
| FileExistsError.

Global Instance exn_eq_dec : EqDecision exn.
Proof. solve_decision. Defined.

Definition result (A : Type) : Type := exn + A.

Global Instance result_ret : MRet result := λ A a, inr a.
Global Instance result_bind : MBind result := λ A B k m,
  match m with
  | inl e => inl e
  | inr a => k a
  end.

Section Frames.
Context `{Pandas}.

(** A column: its dtype and its cells.  An object column holds the
    strings of the file and NaN for missing cells. *)
Inductive series :=
| ObjectSeries (cells : list (option string))
| NumberSeries (cells : list (option number))
| DatetimeSeries (cells : list (option timestamp)).

Definition dtype_of (s : series) : dtype :=
  match s with
  | ObjectSeries _ => dt_object
  | NumberSeries _ => dt_number
  | DatetimeSeries _ => dt_datetime64
  end.

Definition series_length (s : series) : nat :=
  match s with
  | ObjectSeries l => length l
  | NumberSeries l => length l
  | DatetimeSeries l => length l
  end.

Record DataFrame := {
  index : nat;
  columns : list (string * series);
}.

Definition labels (df : DataFrame) : list string := fst <$> columns df.

(** [df[col]] *)
Fixpoint lookup_col (cs : list (string * series)) (col : string)
  : option series :=
  match cs with
  | [] => None
  | (n, s) :: rest => if decide (n = col) then Some s else lookup_col rest col
  end.

Definition getitem (df : DataFrame) (col : string) : result series :=
  match lookup_col (columns df) col with
  | Some s => inr s
  | None => inl (KeyError col)
  end.

(** [df[col] = s]: an existing label keeps its position, a new label is
    appended. *)
Fixpoint assign_col (cs : list (string * series)) (col : string) (s : series)
  : list (string * series) :=
  match cs with
  | [] => [(col, s)]
  | (n, x) :: rest =>
      if decide (n = col) then (n, s) :: rest
      else (n, x) :: assign_col rest col s
  end.

Definition setitem (df : DataFrame) (col : string) (s : series) : DataFrame :=
  {| index := index df; columns := assign_col (columns df) col s |}.

(** [df.select_dtypes(include=['object'])], iterated: the labels of the
    object columns, in order. *)
Definition select_dtypes_object (df : DataFrame) : list string :=
  fst <$> filter (λ c, dtype_of c.2 = dt_object) (columns df).

(** *** The pandas calls of the two passes *)

(** [astype(str)]: NaN becomes the string nan. *)
Definition astype_str (s : series) : series :=
  match s with
  | ObjectSeries l => ObjectSeries ((λ c, Some (default "nan" c)) <$> l)
  | NumberSeries l =>
      ObjectSeries ((λ c, Some (from_option format_number "nan" c)) <$> l)
  | DatetimeSeries l =>
      ObjectSeries ((λ c, Some (from_option format_timestamp "NaT" c)) <$> l)
  end.

(** [replace({quote: two quotes}, regex=True)]: strings only. *)
Definition replace_quotes (s : series) : series :=
  match s with
  | ObjectSeries l => ObjectSeries ((λ c : option string, Str.double_quotes <$> c) <$> l)
  | _ => s
  end.

(** [pd.to_datetime(s, errors='coerce')] *)
Definition to_datetime (s : series) : series :=
  match s with
  | ObjectSeries l => DatetimeSeries ((λ c : option string, c ≫= str_to_timestamp) <$> l)
  | NumberSeries l => DatetimeSeries ((λ c : option number, c ≫= number_to_timestamp) <$> l)
  | DatetimeSeries l => DatetimeSeries l
  end.

(** One cell of an object column under [to_numeric]. *)
Definition cell_to_number (c : option string) : option (option number) :=
  match c with
  | None => Some None
  | Some x => str_to_number x
  end.

(** [pd.to_numeric(s)] (errors='raise'): all cells convert, or
    ValueError.  An empty object column converts, to an empty numeric
    one. *)
Definition to_numeric (s : series) : result series :=
  match s with
  | ObjectSeries l =>
      match mapM cell_to_number l with
      | Some nums => inr (NumberSeries nums)
      | None => inl ValueError
      end
  | NumberSeries l => inr (NumberSeries l)
  | DatetimeSeries l => inr (DatetimeSeries l)
  end.

(** *** The reader *)

(** The table of fields an upload decodes to: the RawTable of the
    specification.  How bytes are split into fields is the reader's
    business and is not modelled. *)
Record RawTable := {
  raw_index : nat;
  raw_columns : list (string * list string);
}.

(** An upload: its file name, and the table its bytes decode to, or
    [None] when the reader cannot decode them. *)
Record upload := {
  name : string;
  decoded : option RawTable;
}.

(** The tokens of the source (lines 18 and 21). *)
Definition na_values : list string := ["NA"; "N/A"; "missing"].

Definition is_na (s : string) : bool :=
  bool_decide (s ∈ na_values) || default_na s.

Definition read_cell (s : string) : option string :=
  if is_na s then None else Some s.

Definition field_to_number (c : option string) : option (option number) :=
  match c with
  | None => Some None
  | Some x => Some <$> reader_number x
  end.

(** The reader types a column by its cells: numeric when every cell
    that is not missing is a number (so also when all are missing),
    object otherwise; a column of no rows is an object column. *)
Definition read_column (raw : list string) : series :=
  let cells := read_cell <$> raw in
  match raw with
  | [] => ObjectSeries []
  | _ :: _ =>
      match mapM field_to_number cells with
      | Some nums => NumberSeries nums
      | None => ObjectSeries cells
      end
  end.

Definition read_table (t : RawTable) : DataFrame :=
  {| index := raw_index t;
     columns := (λ c, (c.1, read_column c.2)) <$> raw_columns t |}.

(** [pd.read_csv(file, encoding='utf-8', na_values=[...])] and
    [pd.read_excel(file, na_values=[...])]. *)
Definition read_csv (file : upload) : result DataFrame :=
  match decoded file with
  | Some t => inr (read_table t)
  | None => inl ParserError
  end.

Definition read_excel (file : upload) : result DataFrame :=
  match decoded file with
  | Some t => inr (read_table t)
  | None => inl ParserError
  end.

(** *** Normalization: the two loops *)

Fixpoint for_each {A} (body : DataFrame → A → result DataFrame)
  (it : list A) (df : DataFrame) : result DataFrame :=
  match it with
  | [] => inr df
  | x :: rest => df' ← body df x; for_each body rest df'
  end.

(** The Sanitizer on one column (line 30). *)
Definition sanitize_series (s : series) : series :=
  replace_quotes (astype_str s).

Definition sanitize_step (df : DataFrame) (col : string) : result DataFrame :=
  s ← getitem df col;
  mret (setitem df col (sanitize_series s)).

(** Lines 28-30. *)
Definition sanitize_pass (df : DataFrame) : result DataFrame :=
  for_each sanitize_step (select_dtypes_object df) df.

Definition is_date_label (col : string) : bool :=
  Str.contains "date" (Str.lower col).

(** Lines 38-43: the assignment happens only when [to_numeric] returns;
    its ValueError is swallowed. *)
Definition try_to_numeric (df : DataFrame) (col : string) : result DataFrame :=
  s ← getitem df col;
  match to_numeric s with
  | inr v => mret (setitem df col v)
  | inl ValueError => mret df
  | inl e => inl e
  end.

(** Lines 34-43. *)
Definition coerce_step (df : DataFrame) (col : string) : result DataFrame :=
  if is_date_label col then
    s ← getitem df col;
    mret (setitem df col (to_datetime s))
  else
    s ← getitem df col;
    if decide (dtype_of s = dt_object) then try_to_numeric df col
    else mret df.

(** Lines 33-43. *)
Definition coerce_pass (df : DataFrame) : result DataFrame :=
  for_each coerce_step (labels df) df.

(** Lines 28-43. *)
Definition normalize (df : DataFrame) : result DataFrame :=
  df1 ← sanitize_pass df; coerce_pass df1.

(** A loop that rewrites the selected columns one after the other. *)
Definition rewrite_selected (f : string → series → series) (sel : list string)
  (c : string * series) : string * series :=
  if decide (c.1 ∈ sel) then (c.1, f c.1 c.2) else c.

(** What the two loops do to one column: the first rewrites the
    object columns and no other, the second is the Type Inferencer
    (infer_and_coerce in the specification). *)
Definition sanitize_column (c : string * series) : string * series :=
  if decide (dtype_of c.2 = dt_object) then (c.1, sanitize_series c.2) else c.

Definition coerce_series (col : string) (s : series) : series :=
  if is_date_label col then to_datetime s
  else if decide (dtype_of s = dt_object) then
    match to_numeric s with
    | inr v => v
    | inl _ => s
    end
  else s.

Definition normalize_column (c : string * series) : string * series :=
  (c.1, coerce_series c.1 (sanitize_column c).2).

(** The semantic type of a column of a frame, when there is a frame. *)
Definition semantic_at (r : result DataFrame) (col : string)
  : result semantic_type :=
  df ← r; s ← getitem df col; mret (semantic_of (dtype_of s)).

(** *** The staged text *)

(** A csv writer with QUOTE_ALL: each field between quotes, quotes
    inside doubled, fields joined by commas, a newline after the row. *)
Definition quote_field (f : string) : string :=
  String Str.dquote (Str.double_quotes f +:+ String Str.dquote EmptyString).

Fixpoint join_fields (fs : list string) : string :=
  match fs with
  | [] => EmptyString
  | [f] => quote_field f
  | f :: rest => quote_field f +:+ String Str.comma (join_fields rest)
  end.

Definition write_row (fs : list string) : string :=
  join_fields fs +:+ String Str.newline EmptyString.

Fixpoint write_rows (rows : list (list string)) : string :=
  match rows with
  | [] => EmptyString
  | r :: rest => write_row r +:+ write_rows rest
  end.

(** The text of each cell; missing cells print as the empty string. *)
Definition cell_texts (s : series) : list string :=
  match s with
  | ObjectSeries l => (λ c : option string, default EmptyString c) <$> l
  | NumberSeries l => (λ c, from_option format_number EmptyString c) <$> l
  | DatetimeSeries l => (λ c, from_option format_timestamp EmptyString c) <$> l
  end.

Definition record_at (df : DataFrame) (i : nat) : list string :=
  (λ c : string * series, default EmptyString (cell_texts c.2 !! i))
    <$> columns df.

Definition records (df : DataFrame) : list (list string) :=
  record_at df <$> seq 0 (index df).

(** [df.to_csv(path, index=False, quoting=csv.QUOTE_ALL)]: the header,
    then one row per record. *)
Definition to_csv (df : DataFrame) : string :=
  write_rows (labels df :: records df).

End Frames.

(** ** The world around the call *)

Inductive message :=
| UnsupportedFormat
| ErrorProcessing (e : exn).

(** Durable storage, the number of names drawn so far, and what
    [st.error] has shown. *)
Record world := {
  fs : gmap string string;
  draws : nat;
  shown : list message;
}.

Definition st_error (m : message) (w : world) : world :=
  {| fs := fs w; draws := draws w; shown := shown w ++ [m] |}.

Definition write_file (path text : string) (w : world) : world :=
  {| fs := <[path := text]> (fs w); draws := draws w; shown := shown w |}.

Section Staging.
Context `{Pandas} `{TempNames}.

Definition TMP_MAX : nat := 100 * 100.

Definition candidate (k : nat) : string :=
  tempdir +:+ "/tmp" +:+ random_name k +:+ ".csv".

(** tempfile draws names until one does not exist yet and creates that
    file (exclusive create), giving up after TMP_MAX names. *)
Fixpoint mkstemp (attempts : nat) (w : world) : result string * world :=
  match attempts with
  | O => (inl FileExistsError, w)
  | S n =>
      let file := candidate (draws w) in
      let w1 := {| fs := fs w; draws := S (draws w); shown := shown w |} in
      match fs w !! file with
      | Some _ => mkstemp n w1
      | None => (inr file, write_file file EmptyString w1)
      end
  end.

(** [tempfile.NamedTemporaryFile(delete=False, suffix=".csv")] *)
Definition NamedTemporaryFile (w : world) : result string * world :=
  mkstemp TMP_MAX w.

(** Lines 46-49. *)
Definition stage (df : DataFrame) (w : world) : result string * world :=
  match NamedTemporaryFile w with
  | (inr temp_path, w1) => (inr temp_path, write_file temp_path (to_csv df) w1)
  | (inl e, w1) => (inl e, w1)
  end.

Definition artifact : Type := string * list string * DataFrame.

(** Lines 28-51, given what the reader returned. *)
Definition process (r : result DataFrame) (w : world)
  : result (option artifact) * world :=
  match r ≫= normalize with
  | inl e => (inl e, w)
  | inr df =>
      match stage df w with
      | (inr temp_path, w1) => (inr (Some (temp_path, labels df, df)), w1)
      | (inl e, w1) => (inl e, w1)
      end
  end.

(** Lines 15-51: the body of the try. *)
Definition try_body (file : upload) (w : world)
  : result (option artifact) * world :=
  if Str.endswith (name file) ".csv" then process (read_csv file) w
  else if Str.endswith (name file) ".xlsx" then process (read_excel file) w
  else (inr None, st_error UnsupportedFormat w).

(** Lines 13-55.  [None] is the triple of Nones. *)
Definition preprocess_and_save (file : upload) (w : world)
  : option artifact * world :=
  match try_body file w with
  | (inr r, w1) => (r, w1)
  | (inl e, w1) => (None, st_error (ErrorProcessing e) w1)
  end.

(** The calls of one process, one after the other on the same
    storage. *)
Fixpoint session (files : list upload) (w : world)
  : list (option artifact) * world :=
  match files with
  | [] => ([], w)
  | file :: rest =>
      let (r, w1) := preprocess_and_save file w in
      let (rs, w2) := session rest w1 in
      (r :: rs, w2)
  end.

Definition path_of (a : artifact) : string := a.1.1.

Definition paths (rs : list (option artifact)) : list string :=
  omap (λ r : option artifact, path_of <$> r) rs.

End Staging.

(** ** A reader of delimited text

    The standard reader the staged file is meant for (comma separated,
    quote delimited, a doubled quote inside a quoted field standing for
    one quote; as Python's csv.reader in strict mode).  It keeps, with
    each field, whether the field was written between quotes. *)

Module Csv.

Inductive state := StartField | InField | InQuoted | QuoteInQuoted.

Definition field : Type := bool * string.

Definition snoc (s : string) (c : ascii) : string :=
  s +:+ String c EmptyString.

(** The record that ends where a field is about to start: an empty
    line is the empty record, a line ending in a comma has a last,
    empty field. *)
Definition close_at_start (row : list field) : list field :=
  match row with
  | [] => []
  | _ :: _ => row ++ [(false, EmptyString)]
  end.

Fixpoint run (st : state) (cur : string) (row : list field)
  (recs : list (list field)) (input : string) : option (list (list field)) :=
  match input with
  | EmptyString =>
      match st with
      | StartField =>
          match row with
          | [] => Some recs
          | _ :: _ => Some (recs ++ [close_at_start row])
          end
      | InField => Some (recs ++ [row ++ [(false, cur)]])
      | InQuoted => None
      | QuoteInQuoted => Some (recs ++ [row ++ [(true, cur)]])
      end
  | String c rest =>
      match st with
      | StartField =>
          if Ascii.eqb c Str.dquote then run InQuoted EmptyString row recs rest
          else if Ascii.eqb c Str.comma
          then run StartField EmptyString (row ++ [(false, EmptyString)]) recs rest
          else if Ascii.eqb c Str.newline
          then run StartField EmptyString [] (recs ++ [close_at_start row]) rest
          else run InField (String c EmptyString) row recs rest
      | InField =>
          if Ascii.eqb c Str.comma
          then run StartField EmptyString (row ++ [(false, cur)]) recs rest
          else if Ascii.eqb c Str.newline
          then run StartField EmptyString [] (recs ++ [row ++ [(false, cur)]]) rest
          else run InField (snoc cur c) row recs rest
      | InQuoted =>
          if Ascii.eqb c Str.dquote then run QuoteInQuoted cur row recs rest
          else run InQuoted (snoc cur c) row recs rest
      | QuoteInQuoted =>
          if Ascii.eqb c Str.dquote then run InQuoted (snoc cur c) row recs rest
          else if Ascii.eqb c Str.comma
          then run StartField EmptyString (row ++ [(true, cur)]) recs rest
          else if Ascii.eqb c Str.newline
          then run StartField EmptyString [] (recs ++ [row ++ [(true, cur)]]) rest
          else None
      end
  end.

Definition read (input : string) : option (list (list field)) :=
  run StartField EmptyString [] [] input.

(** A row all of whose fields were read between quotes. *)
Definition as_quoted (fs : list string) : list field := pair true <$> fs.

(** The texts of the fields, for a reader that does not care how they
    were delimited. *)
Definition texts (rs : list (list field)) : list (list string) :=
  (λ r : list field, snd <$> r) <$> rs.

End Csv.

(** ** The page

    The script around [preprocess_and_save] (lines 57-150), which
    Streamlit runs from top to bottom at every interaction: the values
    of the widgets are the input of a run, the session state and the
    storage carry over to the next.  The query agent is outside the
    repository: what it answers is an interface, [Phi], and the calls
    made to it are recorded.  A run returns what it displays, widgets
    left out; the messages of [preprocess_and_save] are in the [shown]
    of the storage. *)

Record table_entry := {
  table_name : string;
  table_description : string;
  table_path : string;
}.

Record semantic_model := {
  tables : list table_entry;
}.

(** The arguments of the DuckDbAgent constructor (lines 101-110). *)
Record agent_settings := {
  model_id : string;
  api_key : string;
  semantic_model_json : string;
  markdown : bool;
  add_history_to_messages : bool;
  followups : bool;
  read_tool_call_history : bool;
  system_prompt : string;
}.

Inductive agent_call :=
| Run (cfg : agent_settings) (query : string)
| PrintResponse (cfg : agent_settings) (query : string) (stream : bool).

(** The agent library: the answer to a call may depend on the calls
    made before it. *)
Class Phi := {
  response : Type;
  failure : Type;
  json_dumps : semantic_model → string;
  (** the content attribute of a response, when it has one *)
  response_content : response → option string;
  response_str : response → string;
  failure_str : failure → string;
  agent_run : agent_settings → string → list agent_call → failure + response;
  agent_print_response :
    agent_settings → string → list agent_call → failure + unit;
}.

Record session_state := {
  openai_key : option string;
  generated_code_set : bool;
}.

(** The values of the widgets in one run. *)
Record widgets := {
  key_input : string;
  uploaded_file : option upload;
  user_query : string;
  submit_query : bool;
}.

(** What is carried from one run to the next. *)
Record app := {
  storage : world;
  state : session_state;
  asked : list agent_call;
}.

Section Page.
Context `{Pandas} `{TempNames} `{Phi}.

(** What a run displays. *)
Inductive element :=
| ElTitle (s : string)
| ElHeader (s : string)
| ElSuccess (s : string)
| ElWarning (s : string)
| ElWrite (s : string)
| ElWriteColumns (s : string) (cols : list string)
| ElDataframe (df : DataFrame)
| ElInfo (s : string)
| ElMarkdown (s : string)
| ElError (s : string).

(** Lines 61-70. *)
Definition sidebar (inp : widgets) (st : session_state)
  : session_state * list element :=
  if decide (key_input inp = EmptyString)
  then (st, [ElHeader "API Keys";
             ElWarning "Please enter your OpenAI API key to proceed."])
  else ({| openai_key := Some (key_input inp);
           generated_code_set := generated_code_set st |},
        [ElHeader "API Keys"; ElSuccess "API key saved!"]).

(** Lines 89-110. *)
Definition make_agent (key temp_path : string) : agent_settings := {|
  model_id := "gpt-4o";
  api_key := key;
  semantic_model_json :=
    json_dumps {| tables := [ {| table_name := "uploaded_data";
                                 table_description := "Contains the uploaded dataset.";
                                 table_path := temp_path |} ] |};
  markdown := true;
  add_history_to_messages := false;
  followups := false;
  read_tool_call_history := false;
  system_prompt := "You are an expert data analyst. Generate SQL queries to solve the user's query. Return only the SQL query, enclosed in ```sql ``` and give the final answer.";
|}.

(** Lines 147-150. *)
Definition failure_elements (e : failure) : list element :=
  [ElError ("Error generating response from the DuckDbAgent: " +:+ failure_str e);
   ElError "Please try rephrasing your query or check if the data format is correct."].

(** Lines 124-150: the button was pressed. *)
Definition submit (cfg : agent_settings) (query : string)
  (calls : list agent_call) : list agent_call * list element :=
  if decide (Str.strip query = EmptyString)
  then (calls, [ElWarning "Please enter a query."])
  else
    let calls1 := calls ++ [Run cfg query] in
    match agent_run cfg query calls with
    | inl e => (calls1, failure_elements e)
    | inr response1 =>
        let content :=
          default (response_str response1) (response_content response1) in
        let calls2 := calls1 ++ [PrintResponse cfg query true] in
        match agent_print_response cfg query calls1 with
        | inl e => (calls2, failure_elements e)
        | inr _ => (calls2, [ElMarkdown content])
        end
    end.

(** Lines 58-150: one run of the script. *)
Definition page (inp : widgets) (a : app) : app * list element :=
  let (st1, side) := sidebar inp (state a) in
  let top := ElTitle "📊 Data Analyst Agent" :: side in
  match uploaded_file inp, openai_key st1 with
  | Some file, Some key =>
      let (r, w1) := preprocess_and_save file (storage a) in
      match r with
      | Some (temp_path, cols, df) =>
          if bool_decide (temp_path ≠ EmptyString) && bool_decide (cols ≠ [])
          then
            let cfg := make_agent key temp_path in
            let st2 := {| openai_key := openai_key st1;
                          generated_code_set := true |} in
            let body :=
              top ++ [ElWrite "Uploaded Data:"; ElDataframe df;
                      ElWriteColumns "Uploaded columns:" cols;
                      ElInfo "💡 Check your terminal for a clearer output of the agent's response"] in
            if submit_query inp then
              let (calls, out) := submit cfg (user_query inp) (asked a) in
              ({| storage := w1; state := st2; asked := calls |}, body ++ out)
            else ({| storage := w1; state := st2; asked := asked a |}, body)
          else ({| storage := w1; state := st1; asked := asked a |}, top)
      | None => ({| storage := w1; state := st1; asked := asked a |}, top)
      end
  | _, _ => ({| storage := storage a; state := st1; asked := asked a |}, top)
  end.

(** Whether a run displayed the uploaded data (line 83). *)
Definition shows_data (shown : list element) : bool :=
  existsb (λ e, match e with ElDataframe _ => true | _ => false end) shown.

(** The runs of one session, one per interaction. *)
Fixpoint reruns (inps : list widgets) (a : app) : app * list (list element) :=
  match inps with
  | [] => (a, [])
  | inp :: rest =>
      let (a1, shown1) := page inp a in
      let (a2, later) := reruns rest a1 in
      (a2, shown1 :: later)
  end.

End Page.

(** ** A small library instance

    Enough of pandas to run the pipeline on examples: numbers are the
    decimal numerals (an optional minus sign, digits, at most one
    point) and the string nan; timestamps are the ISO calendar dates
    YYYY-MM-DD, kept as year, month and day.  It agrees with pandas on
    the strings the examples use and is not a model of its grammars; a
    number is never converted to a timestamp here. *)

Module Demo.

Definition digit (c : ascii) : option Z :=
  let n := nat_of_ascii c in
  if (48 <=? n)%nat && (n <=? 57)%nat then Some (Z.of_nat (n - 48)) else None.

(** Digits and at most one point: the mantissa, and the number of
    digits after the point. *)
Fixpoint scan (s : string) (mant : Z) (frac : option nat) (seen : bool)
  : option (Z * nat) :=
  match s with
  | EmptyString => if seen then Some (mant, default 0%nat frac) else None
  | String c t =>
      match digit c with
      | Some d => scan t (10 * mant + d)%Z (S <$> frac) true
      | None =>
          if Ascii.eqb c "."%char
          then match frac with
               | None => scan t mant (Some 0%nat) seen
               | Some _ => None
               end
          else None
      end
  end.

(** A decimal number: the mantissa and the number of decimals. *)
Definition decimal (s : string) : option (Z * nat) :=
  match s with
  | String c t =>
      if Ascii.eqb c "-"%char
      then (λ mf : Z * nat, ((- mf.1)%Z, mf.2)) <$> scan t 0 None false
      else scan s 0 None false
  | EmptyString => None
  end.

Definition to_number (s : string) : option (option (Z * nat)) :=
  if decide (s = "nan") then Some None else Some <$> decimal s.

(** Digits only. *)
Definition number_of (s : string) : option nat :=
  if Str.has_char "."%char s then None
  else match scan s 0 None false with
       | Some (m, O) => Some (Z.to_nat m)
       | _ => None
       end.

Definition leap (y : nat) : bool :=
  ((y mod 4 =? 0) && negb (y mod 100 =? 0) || (y mod 400 =? 0))%nat.

Definition days_in (y m : nat) : nat :=
  match m with
  | 1 | 3 | 5 | 7 | 8 | 10 | 12 => 31
  | 4 | 6 | 9 | 11 => 30
  | 2 => if leap y then 29 else 28
  | _ => 0
  end.

Definition iso_date (s : string) : option (nat * nat * nat) :=
  if decide (String.length s = 10%nat) then
    y ← number_of (String.substring 0 4 s);
    m ← number_of (String.substring 5 2 s);
    d ← number_of (String.substring 8 2 s);
    if decide (String.substring 4 1 s = "-" ∧ String.substring 7 1 s = "-"
               ∧ (1 ≤ d ≤ days_in y m)%nat)
    then Some (y, m, d) else None
  else None.

Definition tokens : list string :=
  [EmptyString; "#N/A"; "#N/A N/A"; "#NA"; "-1.#IND"; "-1.#QNAN"; "-NaN";
   "-nan"; "1.#IND"; "1.#QNAN"; "<NA>"; "N/A"; "NA"; "NULL"; "NaN"; "None";
   "n/a"; "nan"; "null"].

Fixpoint show_nat (fuel n : nat) (acc : string) : string :=
  match fuel with
  | O => acc
  | S f =>
      let acc' := String (ascii_of_nat (48 + n mod 10)) acc in
      if (n <? 10)%nat then acc' else show_nat f (n / 10) acc'
  end.

Definition show (n : nat) : string := show_nat (S n) n EmptyString.

Definition pad2 (n : nat) : string :=
  if (n <? 10)%nat then "0" +:+ show n else show n.

Definition show_decimal (x : Z * nat) : string :=
  let m := Z.abs_nat x.1 in
  let p := (10 ^ x.2)%nat in
  (if (x.1 <? 0)%Z then "-" else EmptyString)
  +:+ show (m / p)
  +:+ (match x.2 with
       | O => EmptyString
       | S _ => "." +:+ String.substring 1 x.2 (show (p + m mod p))
       end).

#[export] Instance pandas : Pandas := {|
  number := Z * nat;
  timestamp := nat * nat * nat;
  default_na := λ s, bool_decide (s ∈ tokens);
  reader_number := decimal;
  str_to_number := to_number;
  str_to_timestamp := iso_date;
  number_to_timestamp := λ _, None;
  format_number := show_decimal;
  format_timestamp := λ t, show t.1.1 +:+ "-" +:+ pad2 t.1.2 +:+ "-" +:+ pad2 t.2;
|}.

(** The first two names drawn are the same: the second call has to
    skip a name that is taken. *)
#[export] Instance names : TempNames := {|
  tempdir := "/tmp";
  random_name := λ k, match k with
                      | 0 | 1 => "k3v9_x0a"
                      | _ => "r" +:+ show k
                      end%nat;
|}.

Definition empty_world : world := {| fs := ∅; draws := 0; shown := [] |}.

Definition q : string := String Str.dquote EmptyString.

Definition orders_table : RawTable := {|
  raw_index := 2;
  raw_columns := [("id", ["1"; "2"]);
                  ("order_date", ["2024-01-05"; "soon"]);
                  ("amount", ["3.5"; "NA"]);
                  ("note", ["say " +:+ q +:+ "hi" +:+ q; "missing"])] |}.

Definition orders : upload := {|
  name := "orders.csv";
  decoded := Some orders_table |}.

(** A frame as the reader returns it: one object column with a date
    in its label, one cell of which holds quote characters. *)
Definition dated : DataFrame := {|
  index := 2;
  columns := [("order_date",
               ObjectSeries [Some "2024-01-05";
                             Some ("due " +:+ q +:+ "soon" +:+ q)])] |}.

Definition dated_sanitized : DataFrame := {|
  index := 2;
  columns := [("order_date",
               ObjectSeries [Some "2024-01-05";
                             Some ("due " +:+ q +:+ q +:+ "soon" +:+ q +:+ q)])] |}.

Definition shipped : DataFrame := {|
  index := 3;
  columns := [("id", NumberSeries [Some (1%Z, 0%nat); Some (2%Z, 0%nat); None]);
              ("Ship_DATE",
               ObjectSeries [Some "2024-02-29"; Some "soon"; None])] |}.

Definition amounts : DataFrame := {|
  index := 3;
  columns := [("amount", ObjectSeries [Some "1"; Some "2"; Some "3.5"]);
              ("city", ObjectSeries [Some "Paris"; None; Some "12"])] |}.

Definition no_rows : DataFrame := {|
  index := 0;
  columns := [("city", ObjectSeries [])] |}.

Definition scores_table : RawTable := {|
  raw_index := 3;
  raw_columns := [("score", ["NA"; "N/A"; "missing"])] |}.

Definition scores : upload := {|
  name := "scores.csv";
  decoded := Some scores_table |}.

Definition cities : upload := {|
  name := "cities.csv";
  decoded := Some {|
    raw_index := 2;
    raw_columns := [("city", ["Paris"; "NA"])] |} |}.

Definition notes : upload := {|
  name := "notes.csv";
  decoded := Some {|
    raw_index := 1;
    raw_columns := [("note", ["say " +:+ q +:+ "hi" +:+ q])] |} |}.

Definition plain_text : upload := {|
  name := "data.txt";
  decoded := None |}.

End Demo.

(** An agent that answers every query but one, and names that are all
    the same, to run the page and the staging on examples. *)

Module DemoApp.
Import Demo.

#[export] Instance phi : Phi := {|
  response := string;
  failure := string;
  json_dumps := λ m, String.concat ";" ((λ t, table_name t +:+ "@" +:+ table_path t) <$> tables m);
  response_content := λ r, Some r;
  response_str := λ r, r;
  failure_str := λ e, e;
  agent_run := λ _ query _,
    if decide (query = "fail") then inl "no answer" else inr ("answer to " +:+ query);
  agent_print_response := λ _ _ _, inr ();
|}.

Definition one_name : TempNames := {|
  tempdir := "/tmp";
  random_name := λ _, "aaaaaaaa";
|}.

Definition taken : world := {|
  fs := {[ "/tmp/tmpaaaaaaaa.csv" := "old" ]};
  draws := 0;
  shown := [];
|}.

Definition fresh : app := {|
  storage := Demo.empty_world;
  state := {| openai_key := None; generated_code_set := false |};
  asked := [];
|}.

Definition with_key : app := {|
  storage := Demo.empty_world;
  state := {| openai_key := Some "sk-1"; generated_code_set := false |};
  asked := [];
|}.

Definition asking (query : string) : widgets := {|
  key_input := EmptyString;
  uploaded_file := Some Demo.orders;
  user_query := query;
  submit_query := true;
|}.

Definition broken : upload := {|
  name := "broken.xlsx";
  decoded := None |}.

Definition shouting : upload := {|
  name := "ORDERS.CSV";
  decoded := Some Demo.orders_table |}.

(** A text column that is no date, under a label with DATE inside. *)
Definition editors : DataFrame := {|
  index := 3;
  columns := [("UPDATED_BY", ObjectSeries [Some "Ann"; None; Some "Bob"])] |}.

(** Two frames that print the same. *)
Definition one_as_number : DataFrame := {|
  index := 1;
  columns := [("id", NumberSeries [Some (1%Z, 0%nat)])] |}.

Definition one_as_text : DataFrame := {|
  index := 1;
  columns := [("id", ObjectSeries [Some "1"])] |}.

End DemoApp.

(** * Facts *)

(** ** Strings *)

Section StrFacts.

Lemma str_app_cons (x : ascii) (a b : string) :
String x a +:+ b = String x (a +:+ b).
Proof. reflexivity. Qed.

Lemma str_app_nil_l (s : string) : EmptyString +:+ s = s.
Proof. reflexivity. Qed.

Lemma str_app_nil_r (s : string) : s +:+ EmptyString = s.
Proof. induction s as [|c s IH]; [done | by rewrite str_app_cons, IH]. Qed.

Lemma str_app_assoc (a b c : string) : (a +:+ b) +:+ c = a +:+ (b +:+ c).
Proof.
induction a as [|x a IH]; [done | by rewrite !str_app_cons, IH].
Qed.

Lemma str_app_snoc (a : string) (x : ascii) (b : string) :
(a +:+ String x EmptyString) +:+ b = a +:+ String x b.
Proof. by rewrite str_app_assoc. Qed.

(** [endswith] holds exactly of the strings that end in the suffix. *)
Lemma endswith_spec (s suffix : string) :
  Str.endswith s suffix = true ↔ ∃ p, s = p +:+ suffix.
Proof.
  split.
  - induction s as [|c s IH]; cbn [Str.endswith]; intros Hs.
    + apply orb_true_iff in Hs as [Hs|Hs]; [|done].
      apply String.eqb_eq in Hs as <-. by exists EmptyString.
    + apply orb_true_iff in Hs as [Hs|Hs].
      * apply String.eqb_eq in Hs as <-. by exists EmptyString.
      * destruct (IH Hs) as [p ->]. by exists (String c p).
  - intros [p ->]. induction p as [|c p IH].
    + rewrite str_app_nil_l.
      destruct suffix; cbn [Str.endswith]; by rewrite String.eqb_refl.
    + rewrite str_app_cons. cbn [Str.endswith]. rewrite IH. apply orb_true_r.
Qed.

Lemma prefix_spec (sub s : string) :
  String.prefix sub s = true ↔ ∃ b, s = sub +:+ b.
Proof.
  revert s. induction sub as [|c sub IH]; intros s.
  - split; [by exists s|by destruct s].
  - destruct s as [|d s]; cbn.
    + split; [done|]. by intros [b Hb].
    + destruct (ascii_dec c d) as [->|Hne].
      * rewrite IH. split; intros [b Hb]; exists b.
        -- by rewrite str_app_cons, <-Hb.
        -- rewrite str_app_cons in Hb. by simplify_eq.
      * split; [done|]. intros [b Hb]. rewrite str_app_cons in Hb.
        by simplify_eq.
Qed.

(** [contains] holds exactly of the strings that have [sub] somewhere
    inside. *)
Lemma contains_spec (sub s : string) :
  Str.contains sub s = true ↔ ∃ a b, s = a +:+ sub +:+ b.
Proof.
  split.
  - induction s as [|c s IH]; cbn [Str.contains]; intros Hs.
    + apply orb_true_iff in Hs as [Hs|Hs]; [|done].
      apply prefix_spec in Hs as [b ->]. by exists EmptyString, b.
    + apply orb_true_iff in Hs as [Hs|Hs].
      * apply prefix_spec in Hs as [b ->]. by exists EmptyString, b.
      * destruct (IH Hs) as (a & b & ->). by exists (String c a), b.
  - intros (a & b & ->). induction a as [|c a IH].
    + rewrite str_app_nil_l.
      assert (String.prefix sub (sub +:+ b) = true) as Hp
        by (apply prefix_spec; by exists b).
      destruct (sub +:+ b); cbn [Str.contains]; by rewrite Hp.
    + rewrite str_app_cons. cbn [Str.contains]. rewrite IH.
      apply orb_true_r.
Qed.

End StrFacts.

(** ** Frames: the loops, column by column *)

Section FrameFacts.
Context `{Pandas}.
Implicit Types (cs : list (string * series)) (df : DataFrame).
Implicit Types (col : string) (s : series) (sel : list string).

Lemma lookup_col_is_Some cs col : col ∈ cs.*1 → is_Some (lookup_col cs col).
Proof.
  induction cs as [|[n x] cs IH]; cbn; [by intros ?%elem_of_nil|].
  intros [->|Hin]%elem_of_cons; case_decide; eauto; done.
Qed.

Lemma lookup_col_elem cs col s : lookup_col cs col = Some s → (col, s) ∈ cs.
Proof.
  induction cs as [|[n x] cs IH]; cbn; [done|].
  case_decide as Hn; intros Hs.
  - simplify_eq. apply elem_of_cons; by left.
  - apply elem_of_cons; right; auto.
Qed.

Lemma lookup_col_NoDup cs col s :
  NoDup cs.*1 → (col, s) ∈ cs → lookup_col cs col = Some s.
Proof.
  induction cs as [|[n x] cs IH]; cbn; [by intros _ ?%elem_of_nil|].
  intros [Hn Hnd]%NoDup_cons [Heq|Hin]%elem_of_cons.
  - simplify_eq. by rewrite decide_True.
  - case_decide as Hc; [|auto]. subst n. destruct Hn.
    apply list_elem_of_fmap. by exists (col, s).
Qed.

Lemma assign_col_labels cs col s : col ∈ cs.*1 → (assign_col cs col s).*1 = cs.*1.
Proof.
  induction cs as [|[n x] cs IH]; cbn; [by intros ?%elem_of_nil|].
  intros Hin. case_decide as Hc; cbn; [done|]. f_equal. apply IH.
  apply elem_of_cons in Hin as [->|]; done.
Qed.

Lemma assign_col_same cs col s : lookup_col cs col = Some s → assign_col cs col s = cs.
Proof.
  induction cs as [|[n x] cs IH]; cbn; [done|].
  case_decide; intros Hs; [by simplify_eq|]. by rewrite IH.
Qed.

Lemma rewrite_selected_cons_ne f sel col (c : string * series) :
  c.1 ≠ col → rewrite_selected f (col :: sel) c = rewrite_selected f sel c.
Proof.
  intros Hc. unfold rewrite_selected.
  destruct (decide (c.1 ∈ sel)) as [Hin|Hout].
  - rewrite decide_True; [done|]. apply elem_of_cons; by right.
  - rewrite decide_False; [done|]. by intros [?|?]%elem_of_cons.
Qed.

Lemma rewrite_after_assign f sel cs col s :
  NoDup cs.*1 → lookup_col cs col = Some s → col ∉ sel →
  rewrite_selected f sel <$> assign_col cs col (f col s)
  = rewrite_selected f (col :: sel) <$> cs.
Proof.
  intros Hnd Hs Hsel. induction cs as [|[n x] cs IH]; cbn in *; [done|].
  apply NoDup_cons in Hnd as [Hn Hnd]. case_decide as Hc.
  - simplify_eq. cbn. f_equal.
    + unfold rewrite_selected; cbn.
      rewrite decide_False by done. rewrite decide_True; [done|].
      apply elem_of_cons; by left.
    + apply list_fmap_ext. intros i [m y] Hi.
      rewrite rewrite_selected_cons_ne; [done|]. cbn. intros ->.
      apply Hn, list_elem_of_fmap. exists (col, y).
      split; [done|]. by eapply list_elem_of_lookup_2.
  - cbn. f_equal; [|by apply IH]. by rewrite rewrite_selected_cons_ne.
Qed.

Lemma for_each_rewrite f (body : DataFrame → string → result DataFrame) :
  (∀ df col, body df col
             = s ← getitem df col; mret (setitem df col (f col s))) →
  ∀ sel df, NoDup (labels df) → NoDup sel → sel ⊆ labels df →
    for_each body sel df
    = inr {| index := index df;
             columns := rewrite_selected f sel <$> columns df |}.
Proof.
  intros Hbody sel. induction sel as [|col sel IH]; intros df Hnd Hsel Hsub.
  - cbn. destruct df as [i cs]; cbn. f_equal. f_equal.
    rewrite <-(list_fmap_id cs) at 1. apply list_fmap_ext.
    intros ? c _. unfold rewrite_selected.
    by rewrite decide_False by apply not_elem_of_nil.
  - apply NoDup_cons in Hsel as [Hcol Hsel].
    assert (col ∈ labels df) as Hin by (apply Hsub, elem_of_cons; by left).
    destruct (lookup_col_is_Some _ _ Hin) as [s Hs].
    cbn [for_each]. rewrite Hbody. unfold getitem. rewrite Hs. cbn.
    rewrite IH; cbn.
    + f_equal. f_equal. by apply rewrite_after_assign.
    + unfold labels; cbn. by rewrite assign_col_labels.
    + done.
    + unfold labels; cbn. rewrite assign_col_labels by done.
      intros x Hx. apply Hsub, elem_of_cons; by right.
Qed.

Lemma relabel_fst (f : string * series → string * series) cs :
  (∀ c, (f c).1 = c.1) → (f <$> cs).*1 = cs.*1.
Proof.
  intros Hf. rewrite <-list_fmap_compose. apply list_fmap_ext.
  intros ? c _. apply Hf.
Qed.

Lemma labels_unique cs (c c' : string * series) :
  NoDup cs.*1 → c ∈ cs → c' ∈ cs → c.1 = c'.1 → c = c'.
Proof.
  intros Hnd Hc Hc' Heq. destruct c as [n x], c' as [n' x']; cbn in *.
  subst n'. f_equal.
  pose proof (lookup_col_NoDup _ _ _ Hnd Hc) as E.
  pose proof (lookup_col_NoDup _ _ _ Hnd Hc') as E'. congruence.
Qed.

Lemma select_dtypes_object_sublist df : select_dtypes_object df `sublist_of` labels df.
Proof. apply fmap_sublist, sublist_filter. Qed.

(** Lines 28-30: the first loop rewrites exactly the object columns. *)
Lemma sanitize_pass_columns df :
  NoDup (labels df) →
  sanitize_pass df
  = inr {| index := index df; columns := sanitize_column <$> columns df |}.
Proof.
  intros Hnd. unfold sanitize_pass.
  rewrite (for_each_rewrite (λ _, sanitize_series)); try done.
  - f_equal. f_equal. apply list_fmap_ext. intros i c Hi.
    apply list_elem_of_lookup_2 in Hi.
    unfold rewrite_selected, sanitize_column.
    destruct (decide (dtype_of c.2 = dt_object)) as [Hobj|Hobj].
    + rewrite decide_True; [done|]. apply list_elem_of_fmap. exists c.
      split; [done|]. by apply list_elem_of_filter.
    + rewrite decide_False; [done|].
      intros (c' & Hn & [Hobj' Hc']%list_elem_of_filter)%list_elem_of_fmap.
      by rewrite (labels_unique _ c c' Hnd Hi Hc' Hn) in Hobj.
  - eapply sublist_NoDup; [done|apply select_dtypes_object_sublist].
  - intros x. apply sublist_subseteq, select_dtypes_object_sublist.
Qed.

Lemma to_numeric_raises s e : to_numeric s = inl e → e = ValueError.
Proof.
  destruct s as [l| |]; cbn; [|done..].
  destruct (mapM cell_to_number l); congruence.
Qed.

Lemma coerce_step_assign df col :
  coerce_step df col
  = s ← getitem df col; mret (setitem df col (coerce_series col s)).
Proof.
  unfold coerce_step, coerce_series, try_to_numeric, getitem.
  destruct (lookup_col (columns df) col) as [s|] eqn:Hs; cbn;
    [|by destruct (is_date_label col)].
  assert (setitem df col s = df) as Hsame.
  { destruct df as [i cs]; unfold setitem; cbn in *.
    by rewrite assign_col_same. }
  destruct (is_date_label col); [done|].
  case_decide; cbn; [|by rewrite Hsame].
  destruct (to_numeric s) as [e|v] eqn:Hv; cbn; [|done].
  apply to_numeric_raises in Hv as ->. by rewrite Hsame.
Qed.

(** Lines 33-43: the second loop applies the Type Inferencer to every
    column. *)
Lemma coerce_pass_columns df :
  NoDup (labels df) →
  coerce_pass df
  = inr {| index := index df;
           columns := (λ c, (c.1, coerce_series c.1 c.2)) <$> columns df |}.
Proof.
  intros Hnd. unfold coerce_pass.
  rewrite (for_each_rewrite coerce_series); try done.
  - f_equal. f_equal. apply list_fmap_ext. intros i c Hi.
    unfold rewrite_selected. rewrite decide_True; [done|].
    apply list_elem_of_fmap. exists c. split; [done|].
    by eapply list_elem_of_lookup_2.
  - apply coerce_step_assign.
Qed.

Lemma sanitize_column_label (c : string * series) : (sanitize_column c).1 = c.1.
Proof. unfold sanitize_column. by case_decide. Qed.

(** Lines 28-43. *)
Lemma normalize_columns df :
  NoDup (labels df) →
  normalize df
  = inr {| index := index df; columns := normalize_column <$> columns df |}.
Proof.
  intros Hnd. unfold normalize. rewrite sanitize_pass_columns by done.
  unfold mbind, result_bind. rewrite coerce_pass_columns; cbn.
  - f_equal. f_equal. rewrite <-list_fmap_compose. apply list_fmap_ext.
    intros i c _. unfold normalize_column; cbn.
    by rewrite sanitize_column_label.
  - unfold labels; cbn. rewrite relabel_fst; [done|].
    apply sanitize_column_label.
Qed.

End FrameFacts.

(** ** The Type Inferencer and the Sanitizer *)

Section Normalization.
Context `{Pandas}.
Implicit Types (df : DataFrame) (col : string) (s : series).

Lemma coerced_column df i col s :
  NoDup (labels df) → columns df !! i = Some (col, s) →
  ∃ df', coerce_pass df = inr df'
         ∧ columns df' !! i = Some (col, coerce_series col s).
Proof.
  intros Hnd Hi. eexists. split; [by apply coerce_pass_columns|]. cbn.
  by rewrite list_lookup_fmap, Hi.
Qed.

Lemma normalized_column df i (c : string * series) :
  NoDup (labels df) → columns df !! i = Some c →
  ∃ df', normalize df = inr df'
         ∧ columns df' !! i = Some (normalize_column c).
Proof.
  intros Hnd Hi. eexists. split; [by apply normalize_columns|]. cbn.
  by rewrite list_lookup_fmap, Hi.
Qed.

(** C2: a column whose label contains date, in any letter case, leaves
    the Type Inferencer as a datetime64 column, whatever its cells: a
    string cell is its timestamp parse, or missing when the parse
    fails, and a missing cell stays missing. *)
Theorem date_label_gives_timestamps df i col s :
  NoDup (labels df) → columns df !! i = Some (col, s) →
  Str.contains "date" (Str.lower col) = true →
  ∃ df' cells,
    coerce_pass df = inr df'
    ∧ columns df' !! i = Some (col, DatetimeSeries cells)
    ∧ semantic_of (dtype_of (DatetimeSeries cells)) = timestamp_type
    ∧ length cells = series_length s
    ∧ (∀ l, s = ObjectSeries l →
            cells = (λ c : option string, c ≫= str_to_timestamp) <$> l)
    ∧ (∀ l, s = NumberSeries l →
            cells = (λ c : option number, c ≫= number_to_timestamp) <$> l).
Proof.
  intros Hnd Hi Hdate.
  destruct (coerced_column df i col s Hnd Hi) as (df' & Hrun & Hcol).
  unfold coerce_series, is_date_label in Hcol. rewrite Hdate in Hcol.
  destruct s as [l|l|l]; cbn in Hcol; eexists df', _;
    (split; [done|]); (split; [exact Hcol|]); (split; [done|]);
    cbn; rewrite ?length_fmap; (split; [done|]);
    split; intros l' Hl; by simplify_eq.
Qed.

(** C3: a string column whose label lacks date.  When every cell that
    is not missing parses as a number the column becomes numeric and
    each cell is its parse; when one of them does not parse the column
    stays an object column with the very same cells. *)
Theorem numeric_or_text df i col (l : list (option string)) :
  NoDup (labels df) → columns df !! i = Some (col, ObjectSeries l) →
  Str.contains "date" (Str.lower col) = false →
  ∃ df', coerce_pass df = inr df' ∧
    ((∀ x, Some x ∈ l → is_Some (str_to_number x)) →
      ∃ nums, columns df' !! i = Some (col, NumberSeries nums)
              ∧ semantic_of (dtype_of (NumberSeries nums)) = numeric
              ∧ Forall2 (λ c n, cell_to_number c = Some n) l nums)
    ∧ ((∃ x, Some x ∈ l ∧ str_to_number x = None) →
        columns df' !! i = Some (col, ObjectSeries l)
        ∧ semantic_of (dtype_of (ObjectSeries l)) = text).
Proof.
  intros Hnd Hi Hdate.
  destruct (coerced_column df i col _ Hnd Hi) as (df' & Hrun & Hcol).
  exists df'. split; [done|].
  unfold coerce_series, is_date_label in Hcol. rewrite Hdate in Hcol.
  cbn in Hcol. split.
  - intros Hall.
    assert (is_Some (mapM cell_to_number l)) as [nums Hnums].
    { apply mapM_is_Some, Forall_forall. intros [x|] Hx; cbn; [auto|done]. }
    rewrite Hnums in Hcol. exists nums. repeat split; [done|].
    by apply mapM_Some.
  - intros (x & Hx & Hfail).
    assert (mapM cell_to_number l = None) as Hnone.
    { apply mapM_None, Exists_exists. by exists (Some x). }
    by rewrite Hnone in Hcol.
Qed.

(** C10, as the code has it: a string column of no rows whose label
    lacks date leaves the Type Inferencer as a numeric column, since
    [to_numeric] has no cell to fail on. *)
Theorem empty_column_is_numeric df i col :
  NoDup (labels df) → columns df !! i = Some (col, ObjectSeries []) →
  Str.contains "date" (Str.lower col) = false →
  ∃ df', coerce_pass df = inr df'
         ∧ columns df' !! i = Some (col, NumberSeries [])
         ∧ semantic_at (coerce_pass df) col = inr numeric.
Proof.
  intros Hnd Hi Hdate.
  destruct (coerced_column df i col _ Hnd Hi) as (df' & Hrun & Hcol).
  unfold coerce_series, is_date_label in Hcol. rewrite Hdate in Hcol.
  cbn in Hcol. exists df'. repeat split; [done..|].
  unfold semantic_at. rewrite Hrun. unfold mbind, result_bind, getitem.
  rewrite (lookup_col_NoDup _ col (NumberSeries [])); [done| |].
  - pose proof (coerce_pass_columns df Hnd) as Hall. rewrite Hrun in Hall.
    injection Hall as ->. cbn. by rewrite relabel_fst.
  - by eapply list_elem_of_lookup_2.
Qed.

Lemma read_table_labels (t : RawTable) :
  labels (read_table t) = (raw_columns t).*1.
Proof.
  unfold labels; cbn. rewrite <-list_fmap_compose.
  by apply list_fmap_ext.
Qed.

Lemma read_missing (raw : list string) :
  Forall (λ x, x ∈ na_values) raw →
  read_cell <$> raw = replicate (length raw) None.
Proof.
  induction 1 as [|x raw Hx _ IH]; [done|]. cbn. f_equal; [|done].
  unfold read_cell, is_na. by rewrite bool_decide_eq_true_2.
Qed.

Lemma missing_fields_convert n :
  mapM field_to_number (replicate n None) = Some (replicate n None).
Proof. induction n as [|n IH]; [done|]. cbn. by rewrite IH. Qed.

(** C4, as the code has it: a column made of the tokens of the source
    only, under a label without date, is normalized without error to
    a column of missing cells, and that column is numeric. *)
Theorem sentinel_column_is_missing_numeric (t : RawTable) i col raw :
  NoDup (raw_columns t).*1 → raw_columns t !! i = Some (col, raw) →
  Forall (λ x, x ∈ na_values) raw →
  Str.contains "date" (Str.lower col) = false →
  ∃ df', normalize (read_table t) = inr df'
         ∧ columns df' !! i
           = Some (col, NumberSeries (replicate (length raw) None))
         ∧ semantic_of (dtype_of (NumberSeries (replicate (length raw) None)))
           = numeric.
Proof.
  intros Hnd Hi Hna Hdate.
  destruct (normalized_column (read_table t) i (col, read_column raw))
    as (df' & Hrun & Hcol).
  { by rewrite read_table_labels. }
  { cbn. by rewrite list_lookup_fmap, Hi. }
  exists df'. repeat split; [done|]. rewrite Hcol. f_equal.
  unfold normalize_column, sanitize_column, coerce_series, is_date_label.
  cbn [fst snd]. rewrite Hdate. f_equal. unfold read_column.
  rewrite (read_missing raw Hna). destruct raw as [|x raw]; [done|].
  by rewrite missing_fields_convert.
Qed.

(** What line 30 leaves in a string column: every cell is a string,
    and a cell that was missing is the string nan. *)
Lemma sanitize_series_cells (l : list (option string)) :
  sanitize_series (ObjectSeries l)
  = ObjectSeries ((λ c, Some (Str.double_quotes (default "nan" c))) <$> l).
Proof.
  unfold sanitize_series; cbn. f_equal. rewrite <-list_fmap_compose.
  apply list_fmap_ext. by intros ? [?|] _.
Qed.

(** C1, as the code has it: the Sanitizer pass comes first and rewrites
    exactly the columns the reader typed as strings; the Type
    Inferencer then runs on its result, so it sees the sanitized cells
    of those columns.  A column the reader typed numeric is not
    touched by the Sanitizer. *)
Theorem sanitizer_runs_first_on_string_columns df :
  NoDup (labels df) →
  ∃ df1 df2,
    sanitize_pass df = inr df1
    ∧ normalize df = coerce_pass df1
    ∧ coerce_pass df1 = inr df2
    ∧ columns df1 = sanitize_column <$> columns df
    ∧ columns df2 = (λ c, (c.1, coerce_series c.1 c.2)) <$> columns df1
    ∧ (∀ c, c ∈ columns df → dtype_of c.2 = dt_object →
            sanitize_column c = (c.1, sanitize_series c.2))
    ∧ (∀ c, c ∈ columns df → dtype_of c.2 ≠ dt_object →
            sanitize_column c = c).
Proof.
  intros Hnd. pose proof (sanitize_pass_columns df Hnd) as H1.
  pose proof (normalize_columns df Hnd) as H2.
  unfold normalize in *. rewrite H1 in *. unfold mbind, result_bind in *.
  eexists _, _. split; [done|]. split; [done|]. split; [exact H2|].
  split; [done|]. split.
  - cbn. rewrite <-list_fmap_compose. apply list_fmap_ext.
    intros ? c _. unfold normalize_column; cbn.
    by rewrite sanitize_column_label.
  - split; intros c _ Hc; unfold sanitize_column;
      [by rewrite decide_True | by rewrite decide_False].
Qed.

End Normalization.

(** ** Writer and reader of the staged text *)

Section CsvFacts.
Context `{Pandas}.
Implicit Types (f cur rest : string) (row : list Csv.field).
Implicit Types (recs : list (list Csv.field)).

(** Inside quotes the reader undoes the doubling, up to the closing
    quote. *)
Lemma run_quoted_text f cur row recs rest :
  Csv.run Csv.InQuoted cur row recs
    (Str.double_quotes f +:+ String Str.dquote rest)
  = Csv.run Csv.QuoteInQuoted (cur +:+ f) row recs rest.
Proof.
  revert cur. induction f as [|c f IH]; intros cur.
  - cbn [Str.double_quotes]. rewrite str_app_nil_l, str_app_nil_r. done.
  - cbn [Str.double_quotes]. destruct (Ascii.eqb c Str.dquote) eqn:Hc.
    + apply Ascii.eqb_eq in Hc as ->. rewrite !str_app_cons. cbn [Csv.run].
      change (Ascii.eqb Str.dquote Str.dquote) with true. cbn match.
      unfold Csv.snoc. rewrite IH. by rewrite str_app_snoc.
    + rewrite str_app_cons. cbn [Csv.run]. rewrite Hc.
      unfold Csv.snoc. rewrite IH. by rewrite str_app_snoc.
Qed.

Lemma run_quote_field f row recs rest :
  Csv.run Csv.StartField EmptyString row recs (quote_field f +:+ rest)
  = Csv.run Csv.QuoteInQuoted f row recs rest.
Proof.
  unfold quote_field. rewrite str_app_cons, str_app_assoc, str_app_cons, str_app_nil_l.
  cbn [Csv.run]. change (Ascii.eqb Str.dquote Str.dquote) with true.
  cbn match. by rewrite run_quoted_text, str_app_nil_l.
Qed.

Lemma run_join_fields f (fs : list string) row recs rest :
  Csv.run Csv.StartField EmptyString row recs
    (join_fields (f :: fs) +:+ String Str.newline rest)
  = Csv.run Csv.StartField EmptyString []
      (recs ++ [row ++ Csv.as_quoted (f :: fs)]) rest.
Proof.
  revert f row. induction fs as [|g fs IH]; intros f row.
  - cbn [join_fields]. rewrite run_quote_field. done.
  - change (join_fields (f :: g :: fs))
      with (quote_field f +:+ String Str.comma (join_fields (g :: fs))).
    rewrite str_app_assoc, run_quote_field, str_app_cons. cbn [Csv.run].
    change (Ascii.eqb Str.comma Str.dquote) with false.
    change (Ascii.eqb Str.comma Str.comma) with true. cbn match.
    rewrite IH. by rewrite <-(assoc_L (++)).
Qed.

Lemma run_write_row (fs : list string) recs rest :
  Csv.run Csv.StartField EmptyString [] recs (write_row fs +:+ rest)
  = Csv.run Csv.StartField EmptyString [] (recs ++ [Csv.as_quoted fs]) rest.
Proof.
  unfold write_row. rewrite str_app_assoc, str_app_cons, str_app_nil_l.
  destruct fs as [|f fs]; [done|]. by rewrite run_join_fields.
Qed.

Lemma run_write_rows (rows : list (list string)) recs :
  Csv.run Csv.StartField EmptyString [] recs (write_rows rows)
  = Some (recs ++ (Csv.as_quoted <$> rows)).
Proof.
  revert recs. induction rows as [|r rows IH]; intros recs.
  - cbn. by rewrite (right_id_L [] (++)).
  - cbn [write_rows]. rewrite run_write_row, IH.
    by rewrite <-(assoc_L (++)).
Qed.

(** The reader gets back the rows the writer was given, each field
    read as a quoted one. *)
Lemma read_write_rows (rows : list (list string)) :
  Csv.read (write_rows rows) = Some (Csv.as_quoted <$> rows).
Proof. unfold Csv.read. by rewrite run_write_rows. Qed.

(** A value with its quotes doubled, put between quotes, reads back as
    the value. *)
Lemma read_wrapped_sanitized f :
  Csv.read (String Str.dquote (Str.double_quotes f
                               +:+ String Str.dquote EmptyString))
  = Some [[(true, f)]].
Proof.
  unfold Csv.read. cbn [Csv.run].
  change (Ascii.eqb Str.dquote Str.dquote) with true. cbn match.
  by rewrite run_quoted_text, str_app_nil_l.
Qed.

Lemma double_quotes_length f :
  String.length f ≤ String.length (Str.double_quotes f)
  ∧ (Str.has_char Str.dquote f = true →
     String.length f < String.length (Str.double_quotes f)).
Proof.
  induction f as [|c f [IH1 IH2]]; [done|].
  cbn [Str.double_quotes Str.has_char].
  destruct (Ascii.eqb c Str.dquote); cbn [String.length orb]; [lia|].
  split; [lia|]. intros Hq. apply IH2 in Hq. lia.
Qed.

(** Doubling changes every string that holds a quote. *)
Lemma double_quotes_changes f :
  Str.has_char Str.dquote f = true → Str.double_quotes f ≠ f.
Proof.
  intros Hq Heq. apply double_quotes_length in Hq. rewrite Heq in Hq. lia.
Qed.

End CsvFacts.

(** ** Staging *)

Section StagingFacts.
Context `{Pandas} `{TempNames}.
Implicit Types (w : world) (df : DataFrame) (file : upload).

Lemma mkstemp_creates n w r w1 :
  mkstemp n w = (r, w1) →
  shown w1 = shown w
  ∧ match r with
    | inr path => fs w !! path = None
                  ∧ fs w1 = <[path := EmptyString]> (fs w)
    | inl _ => fs w1 = fs w
    end.
Proof.
  revert w. induction n as [|n IH]; intros w Hrun; cbn in Hrun.
  - by simplify_eq.
  - destruct (fs w !! candidate (draws w)) eqn:Hfree.
    + apply IH in Hrun. done.
    + by simplify_eq.
Qed.

Lemma stage_creates df w r w1 :
  stage df w = (r, w1) →
  shown w1 = shown w
  ∧ match r with
    | inr path => fs w !! path = None
                  ∧ fs w1 = <[path := to_csv df]> (fs w)
    | inl _ => fs w1 = fs w
    end.
Proof.
  unfold stage, NamedTemporaryFile.
  destruct (mkstemp TMP_MAX w) as [[e|path] w0] eqn:Hmk;
    apply mkstemp_creates in Hmk as [Hshown Hfs]; intros ?; simplify_eq;
    [done|].
  destruct Hfs as [Hfree Hfs]. cbn. rewrite Hfs.
  by rewrite insert_insert_eq.
Qed.

Lemma process_creates (r : result DataFrame) w out w1 :
  process r w = (out, w1) →
  match out with
  | inr (Some (path, cols, df)) =>
      r ≫= normalize = inr df ∧ cols = labels df
      ∧ fs w !! path = None ∧ fs w1 = <[path := to_csv df]> (fs w)
      ∧ shown w1 = shown w
  | inr None => False
  | inl _ => fs w1 = fs w ∧ shown w1 = shown w
  end.
Proof.
  unfold process. destruct (r ≫= normalize) as [e|df]; [by intros; simplify_eq|].
  destruct (stage df w) as [[e|path] w0] eqn:Hst;
    apply stage_creates in Hst as [Hshown Hfs]; intros ?; simplify_eq;
    [done|]. by destruct Hfs.
Qed.

Lemma read_some file df :
  read_csv file = inr df ∨ read_excel file = inr df →
  ∃ t, decoded file = Some t ∧ df = read_table t.
Proof.
  unfold read_csv, read_excel.
  destruct (decoded file) as [t|]; intros [?|?]; simplify_eq; eauto.
Qed.

(** A call that returns an artifact: the extension was one of the two,
    the upload decoded, and the path is a new file holding the text of
    the frame. *)
Lemma preprocess_returns file w path cols df w1 :
  preprocess_and_save file w = (Some (path, cols, df), w1) →
  (Str.endswith (name file) ".csv" = true
   ∨ Str.endswith (name file) ".xlsx" = true)
  ∧ (∃ t, decoded file = Some t ∧ normalize (read_table t) = inr df)
  ∧ cols = labels df
  ∧ fs w !! path = None
  ∧ fs w1 = <[path := to_csv df]> (fs w)
  ∧ shown w1 = shown w.
Proof.
  unfold preprocess_and_save, try_body.
  destruct (Str.endswith (name file) ".csv") eqn:Hcsv;
    [|destruct (Str.endswith (name file) ".xlsx") eqn:Hxlsx];
    [| |by intros; simplify_eq].
  - destruct (process (read_csv file) w) as [[e|[[[p c] d]|]] w0] eqn:Hp;
      apply process_creates in Hp; intros ?; simplify_eq.
    destruct Hp as (Hn & -> & Hfree & Hfs & Hshown).
    destruct (read_csv file) as [e|df0] eqn:Hr; [done|].
    destruct (read_some file df0 (or_introl Hr)) as (t & Ht & ->).
    repeat split; eauto.
  - destruct (process (read_excel file) w) as [[e|[[[p c] d]|]] w0] eqn:Hp;
      apply process_creates in Hp; intros ?; simplify_eq.
    destruct Hp as (Hn & -> & Hfree & Hfs & Hshown).
    destruct (read_excel file) as [e|df0] eqn:Hr; [done|].
    destruct (read_some file df0 (or_intror Hr)) as (t & Ht & ->).
    repeat split; eauto.
Qed.

(** A call that returns nothing leaves storage as it was. *)
Lemma preprocess_fails file w w1 :
  preprocess_and_save file w = (None, w1) → fs w1 = fs w.
Proof.
  unfold preprocess_and_save, try_body.
  destruct (Str.endswith (name file) ".csv");
    [|destruct (Str.endswith (name file) ".xlsx")];
    [| |by intros; simplify_eq].
  - destruct (process (read_csv file) w) as [[e|[[[p c] d]|]] w0] eqn:Hp;
      apply process_creates in Hp; intros ?; simplify_eq; [by destruct Hp|done].
  - destruct (process (read_excel file) w) as [[e|[[[p c] d]|]] w0] eqn:Hp;
      apply process_creates in Hp; intros ?; simplify_eq; [by destruct Hp|done].
Qed.

(** Every call only adds to storage. *)
Lemma preprocess_keeps file w r w1 path text :
  preprocess_and_save file w = (r, w1) →
  fs w !! path = Some text → fs w1 !! path = Some text.
Proof.
  intros Hrun Hfile. destruct r as [[[p cols] df]|].
  - apply preprocess_returns in Hrun as (_ & _ & _ & Hfree & -> & _).
    rewrite lookup_insert_ne; [done|]. intros ->. congruence.
  - apply preprocess_fails in Hrun. by rewrite Hrun.
Qed.

Lemma session_invariant (files : list upload) w rs w1 :
  session files w = (rs, w1) →
  (∀ path text, fs w !! path = Some text → fs w1 !! path = Some text)
  ∧ NoDup (paths rs)
  ∧ (∀ path, path ∈ paths rs → fs w !! path = None)
  ∧ (∀ a, Some a ∈ rs → fs w1 !! path_of a = Some (to_csv a.2)).
Proof.
  revert w rs w1. induction files as [|file files IH]; intros w rs w1 Hrun.
  - cbn in Hrun. simplify_eq. repeat split; try done.
    + apply NoDup_nil_2.
    + by intros ? ?%elem_of_nil.
    + by intros ? ?%elem_of_nil.
  - cbn in Hrun.
    destruct (preprocess_and_save file w) as [r w0] eqn:Hcall.
    destruct (session files w0) as [rs0 w2] eqn:Hrest. simplify_eq.
    destruct (IH _ _ _ Hrest) as (Hkeep & Hnd & Hnew & Hheld).
    pose proof (λ path text, preprocess_keeps _ _ _ _ path text Hcall) as Hkeep0.
    split; [by eauto|].
    destruct r as [[[p cols] df]|]; cbn.
    + pose proof Hcall as Hc.
      apply preprocess_returns in Hc as (_ & _ & _ & Hfree & Hfs & _).
      assert (fs w0 !! p = Some (to_csv df)) as Hp
        by (rewrite Hfs; apply lookup_insert_eq).
      repeat split.
      * apply NoDup_cons. split; [|done]. intros Hin%Hnew. congruence.
      * intros path [->|Hin]%elem_of_cons; [done|].
        apply Hnew in Hin. destruct (fs w !! path) eqn:E; [|done].
        apply Hkeep0 in E. congruence.
      * intros a [Ha|Ha]%elem_of_cons; [|by apply Hheld].
        simplify_eq. by apply Hkeep.
    + apply preprocess_fails in Hcall. repeat split; [done| |].
      * intros path Hin%Hnew. by rewrite <-Hcall.
      * intros a [Ha|Ha]%elem_of_cons; [done|by apply Hheld].
Qed.

(** C7: over any sequence of calls on the same storage, the paths
    returned are pairwise distinct, every artifact still holds the
    text it was written with when the last call returns, and no file
    that existed before has changed. *)
Theorem staged_paths_are_never_reused (files : list upload) w :
  NoDup (paths (session files w).1)
  ∧ (∀ i j a b, i ≠ j →
       (session files w).1 !! i = Some (Some a) →
       (session files w).1 !! j = Some (Some b) →
       path_of a ≠ path_of b)
  ∧ (∀ a, Some a ∈ (session files w).1 →
       fs (session files w).2 !! path_of a = Some (to_csv a.2))
  ∧ (∀ path text, fs w !! path = Some text →
       fs (session files w).2 !! path = Some text).
Proof.
  destruct (session files w) as [rs w1] eqn:Hrun. cbn.
  destruct (session_invariant _ _ _ _ Hrun) as (Hkeep & Hnd & _ & Hheld).
  repeat split; [done| |done|done].
  clear -Hnd. revert Hnd. generalize rs. clear rs.
  induction rs as [|r rs IH]; intros Hnd i j a b Hij Hi Hj Hab; [done|].
  assert (∀ k c, rs !! k = Some (Some c) → path_of c ∈ paths rs) as Hin.
  { intros k c Hk. apply list_elem_of_omap. exists (Some c).
    split; [by eapply list_elem_of_lookup_2|done]. }
  destruct r as [a0|]; cbn in Hnd.
  - apply NoDup_cons in Hnd as [Hout Hnd].
    destruct i as [|i], j as [|j]; cbn in *; simplify_eq.
    + apply Hout. rewrite Hab. by eapply Hin.
    + apply Hout. rewrite <-Hab. by eapply Hin.
    + eapply (IH Hnd i j); eauto.
  - destruct i as [|i], j as [|j]; cbn in *; simplify_eq.
    eapply (IH Hnd i j); eauto.
Qed.

(** C8: a file name that ends neither in .csv nor in .xlsx is refused:
    the call reports the unsupported format, returns no artifact, and
    storage is exactly what it was. *)
Theorem other_extensions_are_refused file w :
  Str.endswith (name file) ".csv" = false →
  Str.endswith (name file) ".xlsx" = false →
  preprocess_and_save file w = (None, st_error UnsupportedFormat w)
  ∧ fs (preprocess_and_save file w).2 = fs w
  ∧ draws (preprocess_and_save file w).2 = draws w
  ∧ shown (preprocess_and_save file w).2 = shown w ++ [UnsupportedFormat].
Proof.
  intros Hcsv Hxlsx. unfold preprocess_and_save, try_body.
  by rewrite Hcsv, Hxlsx.
Qed.

End StagingFacts.

(** ** The staged artifact *)

Section StagedText.
Context `{Pandas} `{TempNames}.

Lemma records_length (df : DataFrame) : length (records df) = index df.
Proof. unfold records. by rewrite length_fmap, length_seq. Qed.

Lemma records_width (df : DataFrame) :
  Forall (λ r, length r = length (labels df)) (records df).
Proof.
  apply Forall_forall. intros r (i & -> & _)%list_elem_of_fmap.
  unfold record_at, labels. by rewrite !length_fmap.
Qed.

(** What a reader finds in the text of any frame. *)
Lemma read_to_csv (df : DataFrame) :
  Csv.read (to_csv df)
  = Some (Csv.as_quoted (labels df) :: (Csv.as_quoted <$> records df)).
Proof. unfold to_csv. by rewrite read_write_rows. Qed.

(** C9: when a call returns an artifact, the file at the returned path
    is comma separated text that a reader splits into a header row and
    one row per record of the source, every field having been written
    between quotes; the header, and the list of columns returned, are
    the labels of the source in their order, and every row has one field
    per column. *)
Theorem staged_artifact_format (file : upload) (t : RawTable) w path cols df w1 :
  decoded file = Some t →
  NoDup (raw_columns t).*1 →
  preprocess_and_save file w = (Some (path, cols, df), w1) →
  cols = (raw_columns t).*1
  ∧ labels df = (raw_columns t).*1
  ∧ fs w1 !! path = Some (to_csv df)
  ∧ Csv.read (to_csv df)
    = Some (Csv.as_quoted (raw_columns t).*1 :: (Csv.as_quoted <$> records df))
  ∧ length (records df) = raw_index t
  ∧ Forall (λ r, length r = length (raw_columns t).*1) (records df).
Proof.
  intros Ht Hnd Hrun.
  apply preprocess_returns in Hrun as (_ & (t' & Ht' & Hnorm) & -> & _ & Hfs & _).
  assert (t' = t) as -> by congruence.
  rewrite normalize_columns in Hnorm by (by rewrite read_table_labels).
  assert (labels df = (raw_columns t).*1) as Hlabels.
  { injection Hnorm as <-. unfold labels; cbn.
    rewrite relabel_fst by done. apply read_table_labels. }
  repeat split.
  - done.
  - done.
  - rewrite Hfs. apply lookup_insert_eq.
  - by rewrite read_to_csv, Hlabels.
  - rewrite records_length. by injection Hnorm as <-.
  - rewrite <-Hlabels. apply records_width.
Qed.

End StagedText.

(** * The pipeline on examples *)

Section Runs.
Import Demo.

Definition first_path : string := "/tmp/tmpk3v9_x0a.csv".

(** Two uploads in a row: the second call draws the name of the first
    again and has to pass it over. *)
Example second_call_skips_taken_name :
  paths (session [orders; orders] empty_world).1 = [first_path; "/tmp/tmpr2.csv"].
Proof. vm_compute. reflexivity. Qed.

(** C1, against the claim: the first loop runs over the column
    order_date and doubles the quotes of its cells, and the column ends
    up a timestamp column, not a text one. *)
Lemma sanitizer_reaches_timestamp_column :
  "order_date" ∈ select_dtypes_object dated
  ∧ sanitize_pass dated = inr dated_sanitized
  ∧ dated_sanitized ≠ dated
  ∧ semantic_at (normalize dated) "order_date" = inr timestamp_type
  ∧ semantic_at (normalize dated) "order_date" ≠ inr text.
Proof.
  assert (semantic_at (normalize dated) "order_date" = inr timestamp_type) as E
    by (vm_compute; reflexivity).
  split_and!.
  - apply list_elem_of_here.
  - reflexivity.
  - intros Heq.
    apply (f_equal (λ d, cell_texts <$> lookup_col (columns d) "order_date")) in Heq.
    vm_compute in Heq. discriminate Heq.
  - exact E.
  - rewrite E. intros [=].
Qed.

(** C4, against the claim: a column of the three tokens comes out of the
    pipeline with all cells missing, and numeric. *)
Lemma sentinel_column_is_not_text :
  (preprocess_and_save scores empty_world).1
  = Some (first_path, ["score"],
          {| index := 3;
             columns := [("score", NumberSeries [None; None; None])] |})
  ∧ semantic_at (read_csv scores ≫= normalize) "score" = inr numeric
  ∧ semantic_at (read_csv scores ≫= normalize) "score" ≠ inr text.
Proof.
  assert (semantic_at (read_csv scores ≫= normalize) "score" = inr numeric) as E
    by (vm_compute; reflexivity).
  split_and!.
  - reflexivity.
  - exact E.
  - rewrite E. intros [=].
Qed.

(** C10, against the claim: a string column of no rows leaves the Type
    Inferencer numeric. *)
Lemma empty_column_is_not_text :
  coerce_pass no_rows
  = inr {| index := 0; columns := [("city", NumberSeries [])] |}
  ∧ semantic_at (coerce_pass no_rows) "city" = inr numeric
  ∧ semantic_at (coerce_pass no_rows) "city" ≠ inr text.
Proof.
  assert (semantic_at (coerce_pass no_rows) "city" = inr numeric) as E
    by (vm_compute; reflexivity).
  split_and!.
  - reflexivity.
  - exact E.
  - rewrite E. intros [=].
Qed.

(** C5, on an upload: the reader marks the cell NA of a text column as
    missing, line 30 turns it into the string nan, and that string is
    what the returned frame and the staged file hold. *)
Theorem missing_text_cell_becomes_nan :
  read_csv cities
  = inr {| index := 2;
           columns := [("city", ObjectSeries [Some "Paris"; None])] |}
  ∧ (preprocess_and_save cities empty_world).1
    = Some (first_path, ["city"],
            {| index := 2;
               columns := [("city", ObjectSeries [Some "Paris"; Some "nan"])] |})
  ∧ (text ← fs (preprocess_and_save cities empty_world).2 !! first_path;
     Csv.read text)
    = Some [[(true, "city")]; [(true, "Paris")]; [(true, "nan")]].
Proof. split_and!; reflexivity. Qed.

Definition said : string := "say " +:+ q +:+ "hi" +:+ q.

(** C6, on an upload: a text cell with quotes is staged with its quotes
    doubled twice, by line 30 and again by the writer, so a reader of
    the staged file gets the cell with doubled quotes and not the cell
    of the source. *)
Theorem staged_text_cell_reads_back_doubled :
  (preprocess_and_save notes empty_world).1
  = Some (first_path, ["note"],
          {| index := 1;
             columns := [("note", ObjectSeries [Some (Str.double_quotes said)])] |})
  ∧ (text ← fs (preprocess_and_save notes empty_world).2 !! first_path;
     Csv.texts <$> Csv.read text)
    = Some [["note"]; [Str.double_quotes said]]
  ∧ Str.double_quotes said ≠ said.
Proof.
  split_and!; [reflexivity..|].
  apply double_quotes_changes. vm_compute. reflexivity.
Qed.

End Runs.

(** * The theorems at concrete inputs *)

Section Witnesses.
Import Demo.

Ltac by_evaluation := apply (bool_decide_unpack _); vm_compute; exact I.

Lemma sanitizer_runs_first_on_string_columns_witness :
  ∃ df1 df2,
    sanitize_pass dated = inr df1
    ∧ normalize dated = coerce_pass df1
    ∧ coerce_pass df1 = inr df2
    ∧ columns df1 = sanitize_column <$> columns dated
    ∧ columns df2 = (λ c, (c.1, coerce_series c.1 c.2)) <$> columns df1
    ∧ (∀ c, c ∈ columns dated → dtype_of c.2 = dt_object →
            sanitize_column c = (c.1, sanitize_series c.2))
    ∧ (∀ c, c ∈ columns dated → dtype_of c.2 ≠ dt_object →
            sanitize_column c = c).
Proof.
  apply (sanitizer_runs_first_on_string_columns dated). by_evaluation.
Defined.

Lemma date_label_gives_timestamps_witness :
  ∃ df' cells,
    coerce_pass shipped = inr df'
    ∧ columns df' !! 1 = Some ("Ship_DATE", DatetimeSeries cells)
    ∧ semantic_of (dtype_of (DatetimeSeries cells)) = timestamp_type
    ∧ length cells = 3
    ∧ (∀ l, ObjectSeries [Some "2024-02-29"; Some "soon"; None] = ObjectSeries l →
            cells = (λ c : option string, c ≫= str_to_timestamp) <$> l)
    ∧ (∀ l, ObjectSeries [Some "2024-02-29"; Some "soon"; None] = NumberSeries l →
            cells = (λ c : option number, c ≫= number_to_timestamp) <$> l).
Proof.
  apply (date_label_gives_timestamps shipped 1 "Ship_DATE"
           (ObjectSeries [Some "2024-02-29"; Some "soon"; None])).
  - by_evaluation.
  - reflexivity.
  - vm_compute. reflexivity.
Defined.

Lemma numeric_or_text_witness :
  ∃ df', coerce_pass amounts = inr df' ∧
    ((∀ x, Some x ∈ [Some "1"; Some "2"; Some "3.5"] → is_Some (str_to_number x)) →
      ∃ nums, columns df' !! 0 = Some ("amount", NumberSeries nums)
              ∧ semantic_of (dtype_of (NumberSeries nums)) = numeric
              ∧ Forall2 (λ c n, cell_to_number c = Some n)
                  [Some "1"; Some "2"; Some "3.5"] nums)
    ∧ ((∃ x, Some x ∈ [Some "1"; Some "2"; Some "3.5"] ∧ str_to_number x = None) →
        columns df' !! 0
        = Some ("amount", ObjectSeries [Some "1"; Some "2"; Some "3.5"])
        ∧ semantic_of (dtype_of (ObjectSeries [Some "1"; Some "2"; Some "3.5"]))
          = text).
Proof.
  apply (numeric_or_text amounts 0 "amount" [Some "1"; Some "2"; Some "3.5"]).
  - by_evaluation.
  - reflexivity.
  - vm_compute. reflexivity.
Defined.

Lemma sentinel_column_is_missing_numeric_witness :
  ∃ df', normalize (read_table scores_table) = inr df'
         ∧ columns df' !! 0 = Some ("score", NumberSeries (replicate 3 None))
         ∧ semantic_of (dtype_of (NumberSeries (replicate 3 None))) = numeric.
Proof.
  apply (sentinel_column_is_missing_numeric scores_table 0 "score"
           ["NA"; "N/A"; "missing"]).
  - by_evaluation.
  - reflexivity.
  - by_evaluation.
  - vm_compute. reflexivity.
Defined.

Lemma empty_column_is_numeric_witness :
  ∃ df', coerce_pass no_rows = inr df'
         ∧ columns df' !! 0 = Some ("city", NumberSeries [])
         ∧ semantic_at (coerce_pass no_rows) "city" = inr numeric.
Proof.
  apply (empty_column_is_numeric no_rows 0 "city").
  - by_evaluation.
  - reflexivity.
  - vm_compute. reflexivity.
Defined.

Lemma other_extensions_are_refused_witness :
  preprocess_and_save plain_text empty_world
  = (None, st_error UnsupportedFormat empty_world)
  ∧ fs (preprocess_and_save plain_text empty_world).2 = fs empty_world
  ∧ draws (preprocess_and_save plain_text empty_world).2 = draws empty_world
  ∧ shown (preprocess_and_save plain_text empty_world).2
    = shown empty_world ++ [UnsupportedFormat].
Proof.
  apply (other_extensions_are_refused plain_text empty_world);
    vm_compute; reflexivity.
Defined.

Lemma staged_artifact_format_witness :
  ∃ path cols df w1,
    preprocess_and_save orders empty_world = (Some (path, cols, df), w1)
    ∧ cols = (raw_columns orders_table).*1
    ∧ labels df = (raw_columns orders_table).*1
    ∧ fs w1 !! path = Some (to_csv df)
    ∧ Csv.read (to_csv df)
      = Some (Csv.as_quoted (raw_columns orders_table).*1
              :: (Csv.as_quoted <$> records df))
    ∧ length (records df) = raw_index orders_table
    ∧ Forall (λ r, length r = length (raw_columns orders_table).*1) (records df).
Proof.
  eexists _, _, _, _. split; [reflexivity|].
  apply (staged_artifact_format orders orders_table empty_world).
  - reflexivity.
  - by_evaluation.
  - reflexivity.
Defined.

End Witnesses.

(** * More of the pipeline *)

(** ** Normalization as a whole *)

Section NormalizationFacts.
Context `{Pandas}.
Implicit Types (df : DataFrame) (col : string) (s : series).

Lemma sanitize_series_length s :
  series_length (sanitize_series s) = series_length s.
Proof. destruct s; cbn; by rewrite !length_fmap. Qed.

Lemma to_numeric_length s v :
  to_numeric s = inr v → series_length v = series_length s.
Proof.
  destruct s as [l|l|l]; cbn; [|by intros; simplify_eq..].
  destruct (mapM cell_to_number l) as [nums|] eqn:E; intros; simplify_eq.
  cbn. apply mapM_Some, Forall2_length in E. done.
Qed.

Lemma coerce_series_length col s :
  series_length (coerce_series col s) = series_length s.
Proof.
  unfold coerce_series. destruct (is_date_label col).
  - destruct s; cbn; by rewrite ?length_fmap.
  - case_decide; [|done].
    destruct (to_numeric s) eqn:E; [done|]. by eapply to_numeric_length.
Qed.

Lemma normalize_column_length (c : string * series) :
  series_length (normalize_column c).2 = series_length c.2.
Proof.
  unfold normalize_column, sanitize_column; cbn.
  rewrite coerce_series_length. case_decide; [|done]. cbn.
  apply sanitize_series_length.
Qed.

(** X1: normalization cannot fail on a frame with unique labels, and it
    keeps the shape of the frame: the number of rows, the labels in
    their order, and the number of cells of every column. *)
Theorem normalization_keeps_shape df :
  NoDup (labels df) →
  ∃ df', normalize df = inr df'
         ∧ index df' = index df
         ∧ labels df' = labels df
         ∧ ∀ i (c : string * series), columns df !! i = Some c →
             ∃ s', columns df' !! i = Some (c.1, s')
                   ∧ series_length s' = series_length c.2.
Proof.
  intros Hnd. eexists. split; [by apply normalize_columns|]. cbn.
  split; [done|]. split.
  - unfold labels; cbn. by apply relabel_fst.
  - intros i c Hi. exists (normalize_column c).2.
    rewrite list_lookup_fmap, Hi. split; [done|].
    apply normalize_column_length.
Qed.

Lemma coerce_series_twice col s :
  coerce_series col (coerce_series col s) = coerce_series col s.
Proof.
  unfold coerce_series. destruct (is_date_label col) eqn:Hd.
  - by destruct s.
  - destruct (decide (dtype_of s = dt_object)) as [Hobj|Hobj].
    + destruct (to_numeric s) as [e|v] eqn:Hv.
      * rewrite decide_True by done. by rewrite Hv.
      * destruct s as [l| |]; try done. cbn in Hv.
        destruct (mapM cell_to_number l); by simplify_eq.
    + by rewrite decide_False.
Qed.

(** X2: the Type Inferencer has nothing left to do on its own result;
    a second pass returns the frame of the first. *)
Theorem type_inferencer_settles df df1 :
  NoDup (labels df) → coerce_pass df = inr df1 → coerce_pass df1 = inr df1.
Proof.
  intros Hnd Hrun. rewrite coerce_pass_columns in Hrun by done.
  injection Hrun as <-. rewrite coerce_pass_columns.
  - cbn. f_equal. f_equal. rewrite <-list_fmap_compose.
    apply list_fmap_ext. intros i c _. cbn. by rewrite coerce_series_twice.
  - unfold labels; cbn. by rewrite relabel_fst.
Qed.

(** X3: after the Sanitizer pass a string column has no missing cell
    left: each cell is the text it had with its quotes doubled, and a
    cell that was missing is the text nan. *)
Theorem sanitizer_fills_missing_cells df :
  NoDup (labels df) →
  ∃ df1, sanitize_pass df = inr df1
    ∧ (∀ i col (l : list (option string)),
         columns df !! i = Some (col, ObjectSeries l) →
         columns df1 !! i
         = Some (col, ObjectSeries
                        ((λ c, Some (Str.double_quotes (default "nan" c))) <$> l)))
    ∧ (∀ col (l : list (option string)),
         (col, ObjectSeries l) ∈ columns df1 → Forall is_Some l).
Proof.
  intros Hnd. eexists. split; [by apply sanitize_pass_columns|]. cbn. split.
  - intros i col l Hi. rewrite list_lookup_fmap, Hi.
    unfold sanitize_column. cbn [fst snd dtype_of fmap option_fmap option_map].
    rewrite decide_True by done. by rewrite sanitize_series_cells.
  - intros col l ([n s] & Heq & _)%list_elem_of_fmap.
    unfold sanitize_column in Heq. cbn [fst snd] in Heq.
    destruct s as [l0|l0|l0]; [|by rewrite decide_False in Heq..].
    rewrite decide_True, sanitize_series_cells in Heq by done.
    simplify_eq. rewrite Forall_fmap. apply Forall_forall.
    intros c _. by eexists.
Qed.

(** X4: a numeric column of the reader whose label lacks date goes
    through both passes unchanged. *)
Theorem numeric_columns_pass_unchanged df i col (l : list (option number)) :
  NoDup (labels df) → columns df !! i = Some (col, NumberSeries l) →
  Str.contains "date" (Str.lower col) = false →
  ∃ df', normalize df = inr df'
         ∧ columns df' !! i = Some (col, NumberSeries l).
Proof.
  intros Hnd Hi Hdate.
  destruct (normalized_column df i _ Hnd Hi) as (df' & Hrun & Hcol).
  exists df'. split; [done|]. rewrite Hcol.
  unfold normalize_column, sanitize_column, coerce_series, is_date_label; cbn.
  by rewrite Hdate.
Qed.

Lemma read_numbers (raw : list string) :
  (∀ x, x ∈ raw → is_na x = false → is_Some (reader_number x)) →
  mapM field_to_number (read_cell <$> raw)
  = Some ((λ x, if is_na x then None else reader_number x) <$> raw).
Proof.
  induction raw as [|x raw IH]; intros Hall; [done|].
  cbn. rewrite IH by (intros y Hy; apply Hall, elem_of_cons; by right).
  unfold read_cell. destruct (is_na x) eqn:Hx; cbn; [done|].
  destruct (Hall x) as [n Hn]; [apply elem_of_cons; by left|done|].
  by rewrite Hn.
Qed.

(** X5: a column of the file in which every field is a number or a
    missing-value token, under a label without date, comes out of
    reader and normalization as a numeric column: the numbers as the
    reader converts them, the tokens as missing cells. *)
Theorem numbers_with_tokens_stay_numeric (t : RawTable) i col raw :
  NoDup (raw_columns t).*1 → raw_columns t !! i = Some (col, raw) →
  raw ≠ [] →
  Str.contains "date" (Str.lower col) = false →
  (∀ x, x ∈ raw → is_na x = false → is_Some (reader_number x)) →
  ∃ df', normalize (read_table t) = inr df'
         ∧ columns df' !! i
           = Some (col, NumberSeries
                          ((λ x, if is_na x then None else reader_number x) <$> raw)).
Proof.
  intros Hnd Hi Hne Hdate Hall.
  destruct (normalized_column (read_table t) i (col, read_column raw))
    as (df' & Hrun & Hcol).
  { by rewrite read_table_labels. }
  { cbn. by rewrite list_lookup_fmap, Hi. }
  exists df'. split; [done|]. rewrite Hcol. f_equal.
  unfold normalize_column, sanitize_column, coerce_series, is_date_label.
  cbn [fst snd]. rewrite Hdate. f_equal. unfold read_column.
  destruct raw as [|x raw]; [done|]. by rewrite (read_numbers _ Hall).
Qed.

End NormalizationFacts.

(** ** Labels, extensions and the Sanitizer on strings *)

Section LabelFacts.
Context `{Pandas} `{TempNames}.

Lemma lower_app (a b : string) :
  Str.lower (a +:+ b) = Str.lower a +:+ Str.lower b.
Proof.
  induction a as [|c a IH]; [done|].
  rewrite str_app_cons. cbn [Str.lower]. by rewrite IH, str_app_cons.
Qed.

Lemma date_inside_label (a x b : string) :
  Str.lower x = "date" → is_date_label (a +:+ x +:+ b) = true.
Proof.
  intros Hx. unfold is_date_label. rewrite !lower_app, Hx.
  apply contains_spec. by exists (Str.lower a), (Str.lower b).
Qed.

(** X6: the letters d, a, t, e in a row anywhere in a label, in any
    case, are enough for the date branch; when no string of such a
    column parses as a timestamp, the Type Inferencer returns a column
    of the same length in which every cell is missing. *)
Theorem date_inside_label_blanks_text (df : DataFrame) i (a x b : string)
    (l : list (option string)) :
  NoDup (labels df) →
  columns df !! i = Some (a +:+ x +:+ b, ObjectSeries l) →
  Str.lower x = "date" →
  (∀ v, Some v ∈ l → str_to_timestamp v = None) →
  ∃ df', coerce_pass df = inr df'
         ∧ columns df' !! i
           = Some (a +:+ x +:+ b, DatetimeSeries (replicate (length l) None)).
Proof.
  intros Hnd Hi Hx Hnone.
  destruct (coerced_column df i _ _ Hnd Hi) as (df' & Hrun & Hcol).
  exists df'. split; [done|]. rewrite Hcol. f_equal. f_equal.
  unfold coerce_series. rewrite date_inside_label by done. cbn. f_equal.
  clear Hi Hcol. induction l as [|c l IH]; [done|]. cbn. f_equal.
  - destruct c as [v|]; [|done]. cbn. apply Hnone, elem_of_cons. by left.
  - apply IH. intros v Hv. apply Hnone, elem_of_cons. by right.
Qed.

(** X7: the Sanitizer loses nothing on a string: two strings with the
    same sanitized form are the same string. *)
Theorem sanitized_strings_stay_apart (a b : string) :
  Str.double_quotes a = Str.double_quotes b → a = b.
Proof.
  intros Heq. pose proof (read_wrapped_sanitized a) as Ha.
  rewrite Heq, read_wrapped_sanitized in Ha. by simplify_eq.
Qed.

Lemma app_tails (a b x y : string) :
  a +:+ x = b +:+ y → (∃ z, y = z +:+ x) ∨ (∃ z, x = z +:+ y).
Proof.
  revert b. induction a as [|c a IH]; intros b Heq.
  - right. by exists b.
  - destruct b as [|d b].
    + left. by exists (String c a).
    + rewrite !str_app_cons in Heq. simplify_eq. eauto.
Qed.

Lemma endswith_app (p x suffix : string) :
  Str.endswith suffix x = false → Str.endswith x suffix = false →
  Str.endswith (p +:+ x) suffix = false.
Proof.
  intros H1 H2. destruct (Str.endswith (p +:+ x) suffix) eqn:E; [|done].
  apply endswith_spec in E as [p' Heq].
  destruct (app_tails _ _ _ _ Heq) as [[z Hz]|[z Hz]].
  - assert (Str.endswith suffix x = true) by (apply endswith_spec; eauto).
    congruence.
  - assert (Str.endswith x suffix = true) by (apply endswith_spec; eauto).
    congruence.
Qed.

(** X8: the extension is compared letter for letter: a name that ends
    in .CSV or .XLSX in capitals is refused as an unsupported format,
    and nothing is read or written. *)
Theorem capital_extension_is_refused (file : upload) (p : string) (w : world) :
  name file = p +:+ ".CSV" ∨ name file = p +:+ ".XLSX" →
  preprocess_and_save file w = (None, st_error UnsupportedFormat w).
Proof.
  intros Hname. unfold preprocess_and_save, try_body.
  assert (Str.endswith (name file) ".csv" = false
          ∧ Str.endswith (name file) ".xlsx" = false) as [-> ->]; [|done].
  destruct Hname as [-> | ->]; split; by apply endswith_app.
Qed.

End LabelFacts.

(** ** Staging: names, failures, growth *)

Section StagingMore.
Context `{Pandas} `{TempNames}.
Implicit Types (w : world) (file : upload).

Lemma mkstemp_first_free n w k :
  k < n →
  (∀ j, j < k → is_Some (fs w !! candidate (draws w + j))) →
  fs w !! candidate (draws w + k) = None →
  mkstemp n w
  = (inr (candidate (draws w + k)),
     {| fs := <[candidate (draws w + k) := EmptyString]> (fs w);
        draws := draws w + k + 1; shown := shown w |}).
Proof.
  revert w k. induction n as [|n IH]; intros w k Hk Htaken Hfree; [lia|].
  cbn [mkstemp]. destruct k as [|k].
  - rewrite Nat.add_0_r in *. rewrite Hfree. unfold write_file; cbn.
    do 2 f_equal. lia.
  - destruct (Htaken 0) as [v Hv]; [lia|]. rewrite Nat.add_0_r in Hv.
    rewrite Hv. rewrite (IH _ k); cbn.
    + repeat f_equal; lia.
    + lia.
    + intros j Hj. specialize (Htaken (S j)).
      replace (draws w + S j) with (S (draws w + j)) in Htaken by lia.
      apply Htaken. lia.
    + by replace (draws w + S k) with (S (draws w + k)) in Hfree by lia.
Qed.

Lemma mkstemp_all_taken n w :
  (∀ j, j < n → is_Some (fs w !! candidate (draws w + j))) →
  mkstemp n w
  = (inl FileExistsError,
     {| fs := fs w; draws := draws w + n; shown := shown w |}).
Proof.
  revert w. induction n as [|n IH]; intros w Htaken.
  - cbn. destruct w. cbn. do 2 f_equal. lia.
  - cbn [mkstemp]. destruct (Htaken 0) as [v Hv]; [lia|].
    rewrite Nat.add_0_r in Hv. rewrite Hv. rewrite IH; cbn.
    + repeat f_equal; lia.
    + intros j Hj. specialize (Htaken (S j)).
      replace (draws w + S j) with (S (draws w + j)) in Htaken by lia.
      apply Htaken. lia.
Qed.

Lemma process_decodable file (t : RawTable) :
  Str.endswith (name file) ".csv" = true
  ∨ Str.endswith (name file) ".xlsx" = true →
  decoded file = Some t →
  ∀ w, try_body file w = process (inr (read_table t)) w.
Proof.
  intros Hext Ht w. unfold try_body, read_csv, read_excel. rewrite Ht.
  destruct (Str.endswith (name file) ".csv"); [done|].
  destruct Hext as [? | ->]; done.
Qed.





Lemma texts_as_quoted (rows : list (list string)) :
  Csv.texts (Csv.as_quoted <$> rows) = rows.
Proof.
  unfold Csv.texts, Csv.as_quoted. rewrite <-list_fmap_compose.
  rewrite <-(list_fmap_id rows) at 2. apply list_fmap_ext.
  intros i r _. cbn. rewrite <-list_fmap_compose.
  rewrite <-(list_fmap_id r) at 2. by apply list_fmap_ext.
Qed.

(** X13: the staged text tells the frames apart: two frames with the
    same text have the same labels and the same text in every cell,
    whatever commas, quotes or line breaks the cells hold. *)
Theorem staged_text_determines_cells (df1 df2 : DataFrame) :
  to_csv df1 = to_csv df2 →
  labels df1 = labels df2 ∧ records df1 = records df2.
Proof.
  intros Heq. pose proof (read_write_rows (labels df1 :: records df1)) as H1.
  pose proof (read_write_rows (labels df2 :: records df2)) as H2.
  unfold to_csv in Heq. rewrite Heq, H2 in H1.
  apply (f_equal (option_map Csv.texts)) in H1. cbn [option_map] in H1.
  rewrite !texts_as_quoted in H1. by simplify_eq.
Qed.

End StagingMore.

(** ** The page *)

Section StripFacts.

Lemma lstrip_blank (s : string) :
  Str.lstrip s = EmptyString ↔ Str.all_space s = true.
Proof.
  induction s as [|c s IH]; [done|]. cbn [Str.lstrip Str.all_space].
  destruct (Str.is_space c); [by rewrite IH|]. split; done.
Qed.

Lemma lstrip_starts_with_text (s : string) :
  Str.all_space (Str.lstrip s) = true → Str.lstrip s = EmptyString.
Proof.
  induction s as [|c s IH]; [done|]. cbn [Str.lstrip].
  destruct (Str.is_space c) eqn:Hc; [done|].
  cbn [Str.all_space]. by rewrite Hc.
Qed.

Lemma rev_app_empty (s acc : string) :
  String.rev_app s acc = EmptyString → s = EmptyString ∧ acc = EmptyString.
Proof.
  revert acc. induction s as [|c s IH]; intros acc; cbn; [done|].
  intros [_ [=]]%IH.
Qed.

Lemma all_space_rev_app (s acc : string) :
  Str.all_space (String.rev_app s acc)
  = Str.all_space s && Str.all_space acc.
Proof.
  revert acc. induction s as [|c s IH]; intros acc; cbn; [done|].
  rewrite IH. cbn. destruct (Str.is_space c), (Str.all_space s); done.
Qed.

(** The test of line 124 holds exactly of the queries made of
    whitespace only. *)
Lemma strip_blank (s : string) :
  Str.strip s = EmptyString ↔ Str.all_space s = true.
Proof.
  unfold Str.strip, Str.rstrip, String.rev. split.
  - intros [Hl _]%rev_app_empty. apply lstrip_blank in Hl.
    rewrite all_space_rev_app, andb_true_r in Hl.
    by apply lstrip_blank, lstrip_starts_with_text.
  - intros Hs%lstrip_blank. by rewrite Hs.
Qed.

End StripFacts.

Section PageFacts.
Context `{Pandas} `{TempNames} `{Phi}.
#[local] Set Warnings "-clear-no-such-hyp".
Implicit Types (inp : widgets) (a : app) (cfg : agent_settings).

Lemma sidebar_cases inp (st : session_state) :
  (key_input inp = EmptyString
   ∧ sidebar inp st
     = (st, [ElHeader "API Keys";
             ElWarning "Please enter your OpenAI API key to proceed."]))
  ∨ (key_input inp ≠ EmptyString
     ∧ sidebar inp st
       = ({| openai_key := Some (key_input inp);
             generated_code_set := generated_code_set st |},
          [ElHeader "API Keys"; ElSuccess "API key saved!"])).
Proof. unfold sidebar. case_decide; [left|right]; done. Qed.

Lemma sidebar_shows_no_data inp (st : session_state) :
  shows_data (sidebar inp st).2 = false.
Proof. by destruct (sidebar_cases inp st) as [[_ ->]|[_ ->]]. Qed.

Lemma submit_shows_no_data cfg (query : string) calls :
  shows_data (submit cfg query calls).2 = false.
Proof.
  unfold submit. case_decide; [done|].
  destruct (agent_run cfg query calls); [done|].
  by destruct (agent_print_response cfg query _).
Qed.

Lemma shows_data_app (l k : list element) :
  shows_data (l ++ k) = shows_data l || shows_data k.
Proof. apply existsb_app. Qed.

(** X14: as long as no key was ever entered, a run processes nothing:
    whatever was uploaded, the state and the storage stay as they were,
    the agent is not asked, and the page is the title, the header and
    the request for a key. *)
Theorem without_a_key_nothing_is_processed inp a :
  key_input inp = EmptyString → openai_key (state a) = None →
  page inp a
  = (a, [ElTitle "📊 Data Analyst Agent"; ElHeader "API Keys";
         ElWarning "Please enter your OpenAI API key to proceed."]).
Proof.
  intros Hfield Hkey. unfold page.
  destruct (sidebar_cases inp (state a)) as [[_ ->]|[? _]]; [|done].
  rewrite Hkey. destruct a; by destruct (uploaded_file inp).
Qed.

(** X15: a key entered once stays in the session: in a later run with
    an empty key field the upload is processed all the same, under the
    key that was saved, while the page asks for a key. *)
Theorem saved_key_outlives_the_field inp a (key : string) (file : upload) :
  openai_key (state a) = Some key → key_input inp = EmptyString →
  uploaded_file inp = Some file →
  storage (page inp a).1 = (preprocess_and_save file (storage a)).2
  ∧ openai_key (state (page inp a).1) = Some key
  ∧ ElWarning "Please enter your OpenAI API key to proceed." ∈ (page inp a).2.
Proof.
  intros Hkey Hfield Hfile. unfold page.
  destruct (sidebar_cases inp (state a)) as [[_ ->]|[? _]]; [|done].
  rewrite Hfile, Hkey.
  destruct (preprocess_and_save file (storage a)) as [[[[p cols] df]|] w1].
  - destruct (bool_decide (p ≠ EmptyString) && bool_decide (cols ≠ [])).
    + destruct (submit_query inp);
        [destruct (submit _ (user_query inp) (asked a)) as [calls out]|];
        cbn; (split_and!; [done..|]); set_solver.
    + cbn. split_and!; [done..|]. set_solver.
  - cbn. split_and!; [done..|]. set_solver.
Qed.



Lemma shows_data_title (t : string) (side : list element) :
  shows_data (ElTitle t :: side) = shows_data side.
Proof. done. Qed.

Lemma page_storage inp a :
  size (fs (storage a)) + (if shows_data (page inp a).2 then 1 else 0)
  ≤ size (fs (storage (page inp a).1)).
Proof.
  unfold page. destruct (sidebar inp (state a)) as [st1 side] eqn:Hside.
  assert (shows_data side = false) as Hno
    by (pose proof (sidebar_shows_no_data inp (state a)) as E;
        by rewrite Hside in E).
  destruct (uploaded_file inp) as [file|];
    [destruct (openai_key st1) as [key|]|];
    [|cbn [fst snd storage]; rewrite shows_data_title, Hno; lia..].
  destruct (preprocess_and_save file (storage a))
    as [[[[p cols] df]|] w1] eqn:Hcall.
  - apply preprocess_returns in Hcall as (_ & _ & _ & Hfree & Hfs & _).
    assert (size (fs w1) = S (size (fs (storage a)))) as Hsize
      by (by rewrite Hfs, map_size_insert_None).
    destruct (bool_decide (p ≠ EmptyString) && bool_decide (cols ≠ []));
      [destruct (submit_query inp);
       [destruct (submit _ (user_query inp) (asked a)) as [calls out]|]|];
      cbn [fst snd storage]; rewrite Hsize;
      match goal with |- context [if ?b then _ else _] => destruct b end; lia.
  - apply preprocess_fails in Hcall. cbn [fst snd storage].
    rewrite shows_data_title, Hno, Hcall. lia.
Qed.

Lemma shows_data_elem (df : DataFrame) (l : list element) :
  ElDataframe df ∈ l → shows_data l = true.
Proof.
  intros Hin. apply existsb_exists. exists (ElDataframe df).
  split; [by apply list_elem_of_In|done].
Qed.

Lemma data_in_body (top out : list element) (df df' : DataFrame)
    (cols : list string) (t1 t2 t3 : string) :
  shows_data top = false → shows_data out = false →
  ElDataframe df
    ∈ (top ++ [ElWrite t1; ElDataframe df'; ElWriteColumns t2 cols; ElInfo t3])
      ++ out →
  df = df'.
Proof.
  intros Ht Ho [[Hin|Hin]%elem_of_app|Hin]%elem_of_app.
  - apply shows_data_elem in Hin. congruence.
  - repeat (apply elem_of_cons in Hin as [Hin|Hin]; [by simplify_eq|]).
    by apply elem_of_nil in Hin.
  - apply shows_data_elem in Hin. congruence.
Qed.

(** X18: a run that displays the uploaded data has just staged it in a
    file that did not exist before the run, and has changed no other
    file. *)
Theorem displayed_data_is_freshly_staged inp a (df : DataFrame) :
  ElDataframe df ∈ (page inp a).2 →
  ∃ path, fs (storage a) !! path = None
          ∧ fs (storage (page inp a).1)
            = <[path := to_csv df]> (fs (storage a)).
Proof.
  intros Hin. pose proof (shows_data_elem _ _ Hin) as Hshow.
  revert Hin Hshow. unfold page.
  destruct (sidebar inp (state a)) as [st1 side] eqn:Hside.
  assert (shows_data side = false) as Hno
    by (pose proof (sidebar_shows_no_data inp (state a)) as E;
        by rewrite Hside in E).
  destruct (uploaded_file inp) as [file|];
    [destruct (openai_key st1) as [key|]|];
    [|cbn [fst snd]; rewrite shows_data_title; intros; congruence..].
  destruct (preprocess_and_save file (storage a))
    as [[[[p cols] df']|] w1] eqn:Hcall;
    [|cbn [fst snd]; rewrite shows_data_title; intros; congruence].
  apply preprocess_returns in Hcall as (_ & _ & _ & Hfree & Hfs & _).
  destruct (bool_decide (p ≠ EmptyString) && bool_decide (cols ≠ []));
    [|cbn [fst snd]; rewrite shows_data_title; intros; congruence].
  destruct (submit_query inp).
  - pose proof (submit_shows_no_data (make_agent key p)
                  (user_query inp) (asked a)) as Hout.
    destruct (submit _ (user_query inp) (asked a)) as [calls out].
    cbn [fst snd storage] in *. intros Hin _. exists p.
    apply (data_in_body (ElTitle _ :: side) out) in Hin as ->; done.
  - cbn [fst snd storage]. intros Hin _. exists p.
    rewrite <-(right_id_L [] (++) (_ ++ _)) in Hin.
    apply (data_in_body (ElTitle _ :: side) []) in Hin as ->; done.
Qed.

(** X19: every run that displays the data leaves one more file behind
    and no run removes one: over any sequence of runs, storage has
    grown by at least the number of runs that displayed the data. *)
Theorem every_displaying_run_leaves_a_file (inps : list widgets) a :
  size (fs (storage a))
  + length (filter (λ shown, shows_data shown = true) (reruns inps a).2)
  ≤ size (fs (storage (reruns inps a).1)).
Proof.
  revert a. induction inps as [|inp inps IH]; intros a; [cbn; lia|].
  cbn [reruns]. pose proof (page_storage inp a) as Hpage.
  destruct (page inp a) as [a1 shown1]. specialize (IH a1).
  destruct (reruns inps a1) as [a2 later]. cbn [fst snd] in *.
  rewrite filter_cons. destruct (shows_data shown1) eqn:E.
  - rewrite decide_True by done. cbn. lia.
  - rewrite decide_False by done. lia.
Qed.

End PageFacts.

(** * The further theorems at concrete inputs *)

Section MoreWitnesses.
Import Demo DemoApp.

Ltac evaluated := apply (bool_decide_unpack _); vm_compute; exact I.

Lemma normalization_keeps_shape_witness :
  ∃ df', normalize amounts = inr df'
         ∧ index df' = index amounts
         ∧ labels df' = labels amounts
         ∧ ∀ i (c : string * series), columns amounts !! i = Some c →
             ∃ s', columns df' !! i = Some (c.1, s')
                   ∧ series_length s' = series_length c.2.
Proof. apply (normalization_keeps_shape amounts). evaluated. Defined.

Lemma type_inferencer_settles_witness :
  ∃ df1, coerce_pass amounts = inr df1 ∧ coerce_pass df1 = inr df1.
Proof.
  eexists. split; [reflexivity|].
  apply (type_inferencer_settles amounts); [evaluated|reflexivity].
Defined.

Lemma sanitizer_fills_missing_cells_witness :
  ∃ df1, sanitize_pass amounts = inr df1
    ∧ (∀ i col (l : list (option string)),
         columns amounts !! i = Some (col, ObjectSeries l) →
         columns df1 !! i
         = Some (col, ObjectSeries
                        ((λ c, Some (Str.double_quotes (default "nan" c))) <$> l)))
    ∧ (∀ col (l : list (option string)),
         (col, ObjectSeries l) ∈ columns df1 → Forall is_Some l).
Proof. apply (sanitizer_fills_missing_cells amounts). evaluated. Defined.

Lemma numeric_columns_pass_unchanged_witness :
  ∃ df', normalize shipped = inr df'
         ∧ columns df' !! 0
           = Some ("id", NumberSeries [Some (1%Z, 0%nat); Some (2%Z, 0%nat); None]).
Proof.
  apply (numeric_columns_pass_unchanged shipped 0 "id").
  - evaluated.
  - reflexivity.
  - vm_compute. reflexivity.
Defined.

Lemma numbers_with_tokens_stay_numeric_witness :
  ∃ df', normalize (read_table orders_table) = inr df'
         ∧ columns df' !! 2
           = Some ("amount",
                   NumberSeries
                     ((λ x, if is_na x then None else reader_number x)
                        <$> ["3.5"; "NA"])).
Proof.
  apply (numbers_with_tokens_stay_numeric orders_table 2 "amount" ["3.5"; "NA"]).
  - evaluated.
  - reflexivity.
  - discriminate.
  - vm_compute. reflexivity.
  - intros x Hx Hna.
    apply elem_of_cons in Hx as [->|Hx]; [by eexists|].
    apply elem_of_cons in Hx as [->|Hx]; [discriminate Hna|].
    by apply elem_of_nil in Hx.
Defined.

Lemma date_inside_label_blanks_text_witness :
  ∃ df', coerce_pass editors = inr df'
         ∧ columns df' !! 0
           = Some ("UP" +:+ "DATE" +:+ "D_BY",
                   DatetimeSeries (replicate 3 None)).
Proof.
  apply (date_inside_label_blanks_text editors 0 "UP" "DATE" "D_BY"
           [Some "Ann"; None; Some "Bob"]).
  - evaluated.
  - reflexivity.
  - vm_compute. reflexivity.
  - intros v Hv.
    apply elem_of_cons in Hv as [Hv|Hv]; [by simplify_eq|].
    apply elem_of_cons in Hv as [Hv|Hv]; [by simplify_eq|].
    apply elem_of_cons in Hv as [Hv|Hv]; [by simplify_eq|].
    by apply elem_of_nil in Hv.
Defined.

Lemma sanitized_strings_stay_apart_witness : said = "say " +:+ q +:+ "hi" +:+ q.
Proof.
  apply (sanitized_strings_stay_apart said ("say " +:+ q +:+ "hi" +:+ q)).
  reflexivity.
Defined.

Lemma capital_extension_is_refused_witness :
  preprocess_and_save shouting empty_world
  = (None, st_error UnsupportedFormat empty_world).
Proof.
  apply (capital_extension_is_refused shouting "ORDERS" empty_world).
  left. reflexivity.
Defined.

Definition after_one_call : world := (preprocess_and_save orders empty_world).2.




Lemma staged_text_determines_cells_witness :
  labels one_as_number = labels one_as_text
  ∧ records one_as_number = records one_as_text.
Proof.
  apply (staged_text_determines_cells one_as_number one_as_text).
  vm_compute. reflexivity.
Defined.

Lemma without_a_key_nothing_is_processed_witness :
  page (asking "top customers") fresh
  = (fresh, [ElTitle "📊 Data Analyst Agent"; ElHeader "API Keys";
             ElWarning "Please enter your OpenAI API key to proceed."]).
Proof.
  apply (without_a_key_nothing_is_processed (asking "top customers") fresh);
    reflexivity.
Defined.

Lemma saved_key_outlives_the_field_witness :
  storage (page (asking "top customers") with_key).1
  = (preprocess_and_save orders (storage with_key)).2
  ∧ openai_key (state (page (asking "top customers") with_key).1) = Some "sk-1"
  ∧ ElWarning "Please enter your OpenAI API key to proceed."
    ∈ (page (asking "top customers") with_key).2.
Proof.
  apply (saved_key_outlives_the_field (asking "top customers") with_key
           "sk-1" orders); reflexivity.
Defined.

Lemma displayed_data_is_freshly_staged_witness :
  ∃ df, (page (asking "top customers") with_key).2 !! 4 = Some (ElDataframe df)
    ∧ ∃ path, fs (storage with_key) !! path = None
              ∧ fs (storage (page (asking "top customers") with_key).1)
                = <[path := to_csv df]> (fs (storage with_key)).
Proof.
  eexists. split; [reflexivity|].
  apply (displayed_data_is_freshly_staged (asking "top customers") with_key).
  apply (list_elem_of_lookup_2 _ 4). reflexivity.
Defined.

(** The page on an example: the answer of the agent to a query, after
    the data, and the two calls it took. *)
Example page_answers_a_query :
  (page (asking "top customers") with_key).2 !! 7
  = Some (ElMarkdown "answer to top customers")
  ∧ length (asked (page (asking "top customers") with_key).1) = 2.
Proof. split; reflexivity. Qed.

End MoreWitnesses.
